(** * intent-datasets: the analysis scripts, embedded and verified

    A shallow embedding of the scripts of the repository
    ([relationship_analyzer.py], [analyze_datasets.py], [sampler.py]) and the
    proofs of the properties their specification states.

    Conventions of the embedding.
    - Python [int] is [Z]; [len] is [Z.of_nat (length _)].
    - Python and numpy floating point results are idealised by exact
      rationals ([Q]); the two non-finite outcomes numpy produces on a
      division by zero are kept apart ([npfloat]).  [round(x, 2)] is rounding
      to hundredths, ties to even.
    - A pandas [DataFrame] is a header (column name and dtype) and a list of
      rows of cells; a cell is [None] when pandas holds a missing value there.
    - A Python [dict] is an association list in insertion order.
    - [print] appends a line to an output log that is threaded through.
    - A raised exception is the [Raise] of a result type. *)

From Stdlib Require Import List String Ascii ZArith QArith Qround Bool Lia.
From Stdlib Require Import DecimalString.
From Stdlib Require Import Permutation Sorted.
Import ListNotations.
Open Scope string_scope.
Open Scope Z_scope.

(** ** Exceptions and results *)

Inductive exn :=
| FileNotFoundError (msg : string)
| EmptyDataError (msg : string)
| ParserError (msg : string)
| ZeroDivisionError (msg : string)
| KeyError (key : string).

(** [str(e)]. *)
Definition exn_str (e : exn) : string :=
  match e with
  | FileNotFoundError m => m
  | EmptyDataError m => m
  | ParserError m => m
  | ZeroDivisionError m => m
  | KeyError k => k
  end.

Inductive result (A : Type) :=
| Ok (a : A)
| Raise (e : exn).
Arguments Ok {A} a.
Arguments Raise {A} e.

Definition bind {A B} (m : result A) (k : A -> result B) : result B :=
  match m with
  | Ok a => k a
  | Raise e => Raise e
  end.

Notation "x <- m ;; k" := (bind m (fun x => k))
  (at level 61, m at next level, right associativity).

(** ** Python text helpers *)

Module Py.

(** [str(n)] for an integer. *)
Definition str_int (z : Z) : string := NilZero.string_of_int (Z.to_int z).

(** [s.endswith(suffix)]. *)
Definition endswith (s suffix : string) : bool :=
  let n := String.length s in
  let m := String.length suffix in
  (m <=? n)%nat && String.eqb (substring (n - m) m s) suffix.

(** [needle in haystack] for two strings. *)
Fixpoint contains (needle haystack : string) : bool :=
  prefix needle haystack ||
  match haystack with
  | EmptyString => false
  | String _ rest => contains needle rest
  end.

(** [x in xs] for a list of strings. *)
Definition mem (x : string) (xs : list string) : bool :=
  existsb (String.eqb x) xs.

(** [sep.join(xs)]. *)
Fixpoint join (sep : string) (xs : list string) : string :=
  match xs with
  | [] => ""
  | [x] => x
  | x :: rest => x ++ sep ++ join sep rest
  end.

(** The digits of [format(n, ",")]: groups of three from the right. *)
Fixpoint group3 (fuel : nat) (digits : list ascii) : list ascii :=
  match fuel with
  | O => digits
  | S fuel' =>
      let n := List.length digits in
      if (n <=? 3)%nat then digits
      else group3 fuel' (firstn (n - 3) digits) ++ ("," :: skipn (n - 3) digits)%char
  end.

(** [f"{n:,}"] for a non-negative integer. *)
Definition fmt_thousands (z : Z) : string :=
  let ds := list_ascii_of_string (str_int z) in
  string_of_list_ascii (group3 (List.length ds) ds).

(** [set(xs)] keeps one copy of each element. *)
Definition set (xs : list string) : list string := nodup string_dec xs.

(** [a / b] for two integers. *)
Definition truediv (a b : Z) : result Q :=
  if b =? 0 then Raise (ZeroDivisionError "division by zero")
  else Ok (inject_Z a / inject_Z b)%Q.

(** [round(x)] on an exact value: nearest integer, ties to even. *)
Definition round_half_even (q : Q) : Z :=
  let f := Qfloor q in
  let r := (q - inject_Z f)%Q in
  match (r ?= 1 # 2)%Q with
  | Lt => f
  | Gt => f + 1
  | Eq => if Z.even f then f else f + 1
  end.

(** [round(x, 2)]. *)
Definition round2 (q : Q) : Q := Qred (round_half_even (q * 100) # 100).

(** A dict with string keys, in insertion order. *)
Definition dict (V : Type) : Type := list (string * V).

Fixpoint get {V} (d : dict V) (k : string) : option V :=
  match d with
  | [] => None
  | (k', v) :: rest => if String.eqb k k' then Some v else get rest k
  end.

(** [d[k] = v]: replaces the value of an existing key in place, appends a
    new key. *)
Fixpoint setitem {V} (d : dict V) (k : string) (v : V) : dict V :=
  match d with
  | [] => [(k, v)]
  | (k', v') :: rest =>
      if String.eqb k k' then (k, v) :: rest else (k', v') :: setitem rest k v
  end.

Definition keys {V} (d : dict V) : list string := map fst d.

(** [k in d]. *)
Definition has_key {V} (d : dict V) (k : string) : bool := mem k (keys d).

(** [d[k]], a [KeyError] when the key is absent. *)
Definition getitem {V} (d : dict V) (k : string) : result V :=
  match get d k with
  | Some v => Ok v
  | None => Raise (KeyError k)
  end.

(** [s.lower()] on the ASCII letters; the other bytes are kept. *)
Definition lower_char (c : ascii) : ascii :=
  let n := nat_of_ascii c in
  if ((65 <=? n) && (n <=? 90))%nat then ascii_of_nat (n + 32) else c.

Fixpoint lower (s : string) : string :=
  match s with
  | EmptyString => EmptyString
  | String c rest => String (lower_char c) (lower rest)
  end.

(** [s * n]. *)
Fixpoint repeat_str (s : string) (n : nat) : string :=
  match n with
  | O => ""
  | S n' => s ++ repeat_str s n'
  end.

(** The newline character. *)
Definition nl : string := String (ascii_of_nat 10) "".

(** [str(x)] for a float that is a number of hundredths, as [round(x, 2)]
    returns it: the integer part, the point, and one or two decimals. *)
Definition str_float2 (q : Q) : string :=
  let k := Qfloor (q * 100) in
  let a := Z.abs k / 100 in
  let b := Z.abs k mod 100 in
  (if k <? 0 then "-" else "") ++ str_int a ++ "."
  ++ (if b mod 10 =? 0 then str_int (b / 10)
      else if b <? 10 then "0" ++ str_int b
      else str_int b).

End Py.

(** ** pandas: frames, columns and cells *)

Module Pd.

(** The dtype labels the scripts tell apart ([str(df[col].dtype)]). *)
Inductive dtype := int64 | float64 | bool_ | boolean | object.

Definition dtype_str (d : dtype) : string :=
  match d with
  | int64 => "int64"
  | float64 => "float64"
  | bool_ => "bool"
  | boolean => "boolean"
  | object => "object"
  end.

(** A value held in a cell.  A float is identified by the text Python
    prints for it ([repr] round-trips), which is all the scripts use of it. *)
Inductive scalar :=
| SInt (z : Z)
| SFloat (repr : string)
| SBool (b : bool)
| SStr (s : string).

(** [None] is a missing value (NaN / None). *)
Definition cell := option scalar.

Definition scalar_eqb (a b : scalar) : bool :=
  match a, b with
  | SInt x, SInt y => Z.eqb x y
  | SFloat x, SFloat y => String.eqb x y
  | SBool x, SBool y => Bool.eqb x y
  | SStr x, SStr y => String.eqb x y
  | _, _ => false
  end.

(** [str(v)], what [astype(str)] applies to each element. *)
Definition str (v : scalar) : string :=
  match v with
  | SInt z => Py.str_int z
  | SFloat r => r
  | SBool true => "True"
  | SBool false => "False"
  | SStr s => s
  end.

(** The float an integer becomes when its column is stored as float64
    (integers below 10^16 print as their digits followed by [.0]). *)
Definition float_of_int (z : Z) : scalar := SFloat (Py.str_int z ++ ".0").

Record DataFrame := {
  header : list (string * dtype);
  rows : list (list cell)
}.

(** [df.columns]. *)
Definition columns (df : DataFrame) : list string := map fst (header df).

(** [len(df)]. *)
Definition len (df : DataFrame) : Z := Z.of_nat (List.length (rows df)).

Fixpoint index_of (c : string) (cs : list string) : option nat :=
  match cs with
  | [] => None
  | c' :: rest =>
      if String.eqb c c' then Some O else option_map S (index_of c rest)
  end.

(** [col in df.columns]. *)
Definition has_column (df : DataFrame) (c : string) : bool :=
  Py.mem c (columns df).

(** [df[col]]: the cells of a column, one per row, a [KeyError] when the
    column is absent.  A row shorter than the header is missing its last
    cells. *)
Definition getitem (df : DataFrame) (c : string) : result (list cell) :=
  match index_of c (columns df) with
  | Some i => Ok (map (fun r => nth i r None) (rows df))
  | None => Raise (KeyError c)
  end.

(** [df[col].dtype]. *)
Definition dtype_of (df : DataFrame) (c : string) : result dtype :=
  Py.getitem (header df) c.

(** [series.dropna()]. *)
Fixpoint dropna (s : list cell) : list scalar :=
  match s with
  | [] => []
  | Some v :: rest => v :: dropna rest
  | None :: rest => dropna rest
  end.

(** [series.astype(str)] on a series without missing values. *)
Definition astype_str (s : list scalar) : list string := map str s.

(** [series.notna()] as a row filter: [len(df[df[col].notna()])]. *)
Definition count_notna (s : list cell) : Z :=
  Z.of_nat (List.length (filter (fun c => match c with Some _ => true | None => false end) s)).

(** [series.isnull().sum()]. *)
Definition isnull_sum (s : list cell) : Z :=
  Z.of_nat (List.length (filter (fun c => match c with Some _ => false | None => true end) s)).

Fixpoint dedup (vs : list scalar) : list scalar :=
  match vs with
  | [] => []
  | v :: rest => v :: filter (fun w => negb (scalar_eqb v w)) (dedup rest)
  end.

(** [series.nunique()]: distinct values, missing ones left out. *)
Definition nunique (s : list cell) : Z :=
  Z.of_nat (List.length (dedup (dropna s))).

(** [df.head(n)]. *)
Definition head (n : nat) (df : DataFrame) : DataFrame :=
  {| header := header df; rows := firstn n (rows df) |}.

End Pd.

(** ** The file system *)

(** A CSV file, already split: its records, each a list of fields; the
    first record is the header line. *)
Definition csv := list (list string).

(** A directory: file name and content, in listing order. *)
Definition directory := Py.dict csv.

(** The file system: directory path and directory. *)
Definition filesystem := Py.dict directory.

(** [list(path.glob("*.csv"))]. *)
Definition glob_csv (d : directory) : list (string * csv) :=
  filter (fun f => Py.endswith (fst f) ".csv") d.

(** ** pandas: reading and writing CSV

    The reader is modelled for files whose fields are integers, booleans
    or text, with distinct non-empty header names.  Decimal fractions are
    not lexed (they stay text), and a record longer than the header is
    always a parse error. *)

Module Csv.
Import Pd.

(** The fields [read_csv] takes for a missing value by default. *)
Definition na_values : list string :=
  [""; "#N/A"; "#N/A N/A"; "#NA"; "-1.#IND"; "-1.#QNAN"; "-NaN"; "-nan";
   "1.#IND"; "1.#QNAN"; "<NA>"; "N/A"; "NA"; "NULL"; "NaN"; "None"; "n/a";
   "nan"; "null"].

Definition is_na (f : string) : bool := Py.mem f na_values.

Definition is_digit (c : ascii) : bool :=
  let n := nat_of_ascii c in ((48 <=? n) && (n <=? 57))%nat.

Fixpoint all_digits (s : string) : bool :=
  match s with
  | EmptyString => true
  | String c rest => is_digit c && all_digits rest
  end.

(** An integer field: an optional sign and at least one digit. *)
Definition parse_int (f : string) : option Z :=
  let body :=
    match f with
    | String "+"%char rest => rest
    | String "-"%char rest => rest
    | _ => f
    end in
  match body with
  | EmptyString => None
  | _ =>
      if all_digits body then
        match f with
        | String "+"%char rest => option_map Z.of_int (NilZero.int_of_string rest)
        | _ => option_map Z.of_int (NilZero.int_of_string f)
        end
      else None
  end.

Definition parse_bool (f : string) : option bool :=
  if Py.mem f ["True"; "TRUE"; "true"] then Some true
  else if Py.mem f ["False"; "FALSE"; "false"] then Some false
  else None.

Definition is_some {A} (o : option A) : bool :=
  match o with Some _ => true | None => false end.

(** The dtype and cells pandas gives a column of text fields. *)
Definition infer_column (fields : list string) : dtype * list cell :=
  let present := filter (fun f => negb (is_na f)) fields in
  let has_na := existsb is_na fields in
  match fields with
  | [] => (object, [])
  | _ =>
      if forallb (fun f => is_some (parse_int f)) present then
        if has_na then
          (float64,
           map (fun f => if is_na f then None
                         else option_map float_of_int (parse_int f)) fields)
        else
          (int64, map (fun f => option_map SInt (parse_int f)) fields)
      else if forallb (fun f => is_some (parse_bool f)) present then
        (if has_na then object else bool_,
         map (fun f => if is_na f then None
                       else option_map SBool (parse_bool f)) fields)
      else
        (object, map (fun f => if is_na f then None else Some (SStr f)) fields)
  end.

(** The fields of column [i], one per record; a short record is padded. *)
Definition field_column (records : list (list string)) (i : nat) : list string :=
  map (fun r => nth i r "") records.

Fixpoint transpose (n : nat) (cols : list (list cell)) : list (list cell) :=
  match n with
  | O => []
  | S n' => map (fun c => hd None c) cols :: transpose n' (map (@tl cell) cols)
  end.

(** The first record (1-based file line, header is line 1) that is longer
    than the header. *)
Fixpoint first_long (width : nat) (line : nat) (records : list (list string))
  : option (nat * nat) :=
  match records with
  | [] => None
  | r :: rest =>
      if (width <? List.length r)%nat then Some (line, List.length r)
      else first_long width (S line) rest
  end.

Definition nat_str (n : nat) : string := Py.str_int (Z.of_nat n).

Definition frame_of (names : list string) (records : list (list string))
  (infer : list string -> dtype * list cell) : DataFrame :=
  let cols := map (fun i => infer (field_column records i)) (seq 0 (List.length names)) in
  {| header := combine names (map fst cols);
     rows := transpose (List.length records) (map snd cols) |}.

(** [pd.read_csv(path)] with its default type inference. *)
Definition read_csv (f : csv) : result DataFrame :=
  match f with
  | [] => Raise (EmptyDataError "No columns to parse from file")
  | names :: records =>
      match first_long (List.length names) 2 records with
      | Some (line, saw) =>
          Raise (ParserError
            ("Error tokenizing data. C error: Expected "
             ++ nat_str (List.length names) ++ " fields in line "
             ++ nat_str line ++ ", saw " ++ nat_str saw))
      | None => Ok (frame_of names records infer_column)
      end
  end.

(** A column read with [dtype=str]: text kept as it is, missing fields
    still recognised. *)
Definition text_column (fields : list string) : dtype * list cell :=
  (object, map (fun f => if is_na f then None else Some (SStr f)) fields).

(** [pd.read_csv(path, dtype=str)]. *)
Definition read_csv_str (f : csv) : result DataFrame :=
  match f with
  | [] => Raise (EmptyDataError "No columns to parse from file")
  | names :: records =>
      match first_long (List.length names) 2 records with
      | Some (line, saw) =>
          Raise (ParserError
            ("Error tokenizing data. C error: Expected "
             ++ nat_str (List.length names) ++ " fields in line "
             ++ nat_str line ++ ", saw " ++ nat_str saw))
      | None => Ok (frame_of names records text_column)
      end
  end.

(** [df.to_csv(path, index=False)]: the header line, then one record per
    row, a missing value written as the empty field. *)
Definition to_csv (df : DataFrame) : csv :=
  columns df ::
  map (fun r =>
         map (fun i => match nth i r None with
                       | Some v => str v
                       | None => ""
                       end)
             (seq 0 (List.length (header df))))
      (rows df).

End Csv.

(** ** numpy scalars *)

Module Np.

(** A float64 result: finite (idealised as a rational), infinite or NaN. *)
Inductive npfloat :=
| Finite (q : Q)
| Inf (negative : bool)
| NaN.

(** [a / b] for a numpy integer [a] and an integer [b]: a zero divisor
    gives NaN or an infinity (with a warning), never an exception. *)
Definition true_divide (a b : Z) : npfloat :=
  if b =? 0 then
    if a =? 0 then NaN else Inf (a <? 0)
  else Finite (inject_Z a / inject_Z b)%Q.

(** [x * k] for a positive integer constant [k]. *)
Definition scale (x : npfloat) (k : positive) : npfloat :=
  match x with
  | Finite q => Finite (q * inject_Z (Zpos k))%Q
  | Inf s => Inf s
  | NaN => NaN
  end.

(** [round(x, 2)]. *)
Definition round2 (x : npfloat) : npfloat :=
  match x with
  | Finite q => Finite (Py.round2 q)
  | Inf s => Inf s
  | NaN => NaN
  end.


(** [x > k]; false on NaN. *)
Definition gtb (x : npfloat) (k : Q) : bool :=
  match x with
  | Finite q => negb (Qle_bool q k)
  | Inf s => negb s
  | NaN => false
  end.

(** [str(x)], what an f-string prints. *)
Definition str (x : npfloat) : string :=
  match x with
  | Finite q => Py.str_float2 q
  | Inf false => "inf"
  | Inf true => "-inf"
  | NaN => "nan"
  end.

End Np.

(** ** relationship_analyzer.py *)

Module RelationshipAnalyzer.
Import Pd.

Section Loader.

(** [pd.read_csv(file_path, low_memory=False)]. *)
Variable read_csv : csv -> result DataFrame.

(** The body of the [for file_path in csv_files] loop of [load_datasets]:
    the [try] adds the table and prints its size, the [except Exception]
    prints the error and goes on. *)
Fixpoint load_loop (csv_files : list (string * csv))
  (datasets : Py.dict DataFrame) (out : list string)
  : Py.dict DataFrame * list string :=
  match csv_files with
  | [] => (datasets, out)
  | (name, content) :: rest =>
      match read_csv content with
      | Ok df =>
          load_loop rest (Py.setitem datasets name df)
            (out ++ ["  " ++ name ++ ": " ++ Py.fmt_thousands (len df)
                     ++ " rows, "
                     ++ Py.str_int (Z.of_nat (List.length (columns df)))
                     ++ " columns"])
      | Raise e =>
          load_loop rest datasets
            (out ++ ["  ERROR loading " ++ name ++ ": " ++ exn_str e])
      end
  end.

(** [load_datasets(data_dir)]: the tables by file name, or the exception
    raised, and what was printed. *)
Definition load_datasets (fs : filesystem) (data_dir : string)
  : result (Py.dict DataFrame) * list string :=
  match Py.get fs data_dir with
  | None =>
      (Raise (FileNotFoundError ("Directory " ++ data_dir ++ " not found")), [])
  | Some d =>
      let csv_files := glob_csv d in
      match csv_files with
      | [] =>
          (Raise (FileNotFoundError ("No CSV files found in " ++ data_dir)), [])
      | _ =>
          let out := ["Loading " ++ Py.str_int (Z.of_nat (List.length csv_files))
                      ++ " CSV files..."] in
          let '(datasets, out') := load_loop csv_files [] out in
          (Ok datasets, out')
      end
  end.

End Loader.

(** (parent_table, parent_key, child_table, child_key) *)
Definition relationship : Type := string * string * string * string.

Definition relationships : list relationship :=
  [ ("db1_keyword_sets_file_sample.csv", "id",
     "db1_keyword_set_keywords_file_sample.csv", "keyword_set_id");
    ("db1_keyword_sets_file_sample.csv", "id",
     "db_company_intent_geo_weekly_file_sample.csv", "keyword_set_id");
    ("db1_keyword_sets_file_sample.csv", "id",
     "db_company_intent_geo_weekly_keywordset_contact_scores_file_sample.csv",
     "keyword_set_id");
    ("db_company_file_sample.csv", "company_id",
     "db_contacts_file_sample.csv", "company_id");
    ("db_company_file_sample.csv", "company_id",
     "db_company_intent_geo_weekly_file_sample.csv", "company_id");
    ("db_company_file_sample.csv", "company_id",
     "db_company_intent_geo_weekly_keywordset_contact_scores_file_sample.csv",
     "company_id");
    ("db_company_full_file_sample.csv", "company_id",
     "db_contacts_file_sample.csv", "company_id");
    ("db_company_full_file_sample.csv", "company_id",
     "db_company_intent_geo_weekly_file_sample.csv", "company_id");
    ("db_company_full_file_sample.csv", "company_id",
     "db_company_intent_geo_weekly_keywordset_contact_scores_file_sample.csv",
     "company_id");
    ("db_contacts_file_sample.csv", "employment_id",
     "db_company_intent_geo_weekly_keywordset_contact_scores_file_sample.csv",
     "employment_id");
    ("db_company_file_sample.csv", "company_id",
     "db_company_file_sample.csv", "parent_id");
    ("db_company_file_sample.csv", "company_id",
     "db_company_file_sample.csv", "ultimate_parent_id");
    ("db_company_full_file_sample.csv", "company_id",
     "db_company_full_file_sample.csv", "parent_id");
    ("db_company_full_file_sample.csv", "company_id",
     "db_company_full_file_sample.csv", "ultimate_parent_id") ].

Record fk_result := {
  parent_table : string;
  parent_key : string;
  child_table : string;
  child_key : string;
  parent_unique_values : Z;
  child_total_refs : Z;
  valid_refs : Z;
  invalid_refs : Z;
  referential_integrity_pct : Q;
  relationship_type : string
}.

(** The metrics of one relationship whose tables and key columns exist
    (the loop body past its two [continue] guards). *)
Definition fk_metrics (r : relationship) (parent_col child_col : list cell)
  : result fk_result :=
  let '(parent_table, parent_key, child_table, child_key) := r in
  let parent_values := Py.set (astype_str (dropna parent_col)) in
  let child_values := Py.set (astype_str (dropna child_col)) in
  let total_child_refs := count_notna child_col in
  let valid_refs :=
    Z.of_nat (List.length
      (filter (fun v => Py.mem v parent_values)
              (astype_str (dropna child_col)))) in
  let invalid_refs := total_child_refs - valid_refs in
  referential_integrity <-
    (if total_child_refs >? 0
     then ratio <- Py.truediv valid_refs total_child_refs ;; Ok (ratio * 100)%Q
     else Ok 0%Q) ;;
  Ok {| parent_table := parent_table;
        parent_key := parent_key;
        child_table := child_table;
        child_key := child_key;
        parent_unique_values := Z.of_nat (List.length parent_values);
        child_total_refs := total_child_refs;
        valid_refs := valid_refs;
        invalid_refs := invalid_refs;
        referential_integrity_pct := Py.round2 referential_integrity;
        relationship_type :=
          if String.eqb parent_table child_table
          then "self-referencing" else "foreign_key" |}.

(** One pass of the loop: what it appends to [results], nothing when a
    guard says [continue]. *)
Definition fk_step (datasets : Py.dict DataFrame) (r : relationship)
  : result (list fk_result) :=
  let '(parent_table, parent_key, child_table, child_key) := r in
  if negb (Py.has_key datasets parent_table)
     || negb (Py.has_key datasets child_table)
  then Ok []
  else
    parent_df <- Py.getitem datasets parent_table ;;
    child_df <- Py.getitem datasets child_table ;;
    if negb (has_column parent_df parent_key)
       || negb (has_column child_df child_key)
    then Ok []
    else
      parent_col <- getitem parent_df parent_key ;;
      child_col <- getitem child_df child_key ;;
      entry <- fk_metrics r parent_col child_col ;;
      Ok [entry].

Fixpoint fk_loop (datasets : Py.dict DataFrame) (rels : list relationship)
  (results : list fk_result) : result (list fk_result) :=
  match rels with
  | [] => Ok results
  | r :: rest =>
      appended <- fk_step datasets r ;;
      fk_loop datasets rest (results ++ appended)
  end.

(** [analyze_foreign_keys(datasets)]. *)
Definition analyze_foreign_keys (datasets : Py.dict DataFrame)
  : result (list fk_result) :=
  fk_loop datasets relationships [].

Record coverage_record := {
  table : string;
  column : string;
  total_rows : Z;
  null_count : Z;
  null_percentage : Np.npfloat;
  unique_values : Z;
  data_type : string
}.

(** The record of one column of one table (the body of the inner loop). *)
Definition coverage_of (filename : string) (df : DataFrame) (col : string)
  : result coverage_record :=
  cells <- getitem df col ;;
  let null_count := isnull_sum cells in
  let null_pct := Np.scale (Np.true_divide null_count (len df)) 100 in
  let unique_count := nunique cells in
  dt <- dtype_of df col ;;
  Ok {| table := filename;
        column := col;
        total_rows := len df;
        null_count := null_count;
        null_percentage := Np.round2 null_pct;
        unique_values := unique_count;
        data_type := dtype_str dt |}.

(** [for col in df.columns]. *)
Fixpoint coverage_columns (filename : string) (df : DataFrame)
  (cols : list string) (coverage : list coverage_record)
  : result (list coverage_record) :=
  match cols with
  | [] => Ok coverage
  | col :: rest =>
      rec <- coverage_of filename df col ;;
      coverage_columns filename df rest (coverage ++ [rec])
  end.

(** [for filename, df in datasets.items()]. *)
Fixpoint coverage_tables (items : list (string * DataFrame))
  (coverage : list coverage_record) : result (list coverage_record) :=
  match items with
  | [] => Ok coverage
  | (filename, df) :: rest =>
      coverage' <- coverage_columns filename df (columns df) coverage ;;
      coverage_tables rest coverage'
  end.

(** [analyze_data_coverage(datasets)]. *)
Definition analyze_data_coverage (datasets : Py.dict DataFrame)
  : result (list coverage_record) :=
  coverage_tables datasets [].

(** [f"{rel['referential_integrity_pct']}"]: the [else] branch of the
    percentage is the integer 0, any other value is a float. *)
Definition pct_str (rel : fk_result) : string :=
  if child_total_refs rel >? 0
  then Py.str_float2 (referential_integrity_pct rel)
  else "0".

(** The two lines printed for a relationship. *)
Definition relationship_lines (rel : fk_result) : list string :=
  [ "  " ++ parent_table rel ++ "(" ++ parent_key rel ++ ") → "
    ++ child_table rel ++ "(" ++ child_key rel ++ ")";
    "    Integrity: " ++ pct_str rel ++ "% ("
    ++ Py.fmt_thousands (valid_refs rel) ++ "/"
    ++ Py.fmt_thousands (child_total_refs rel) ++ " valid)" ].

(** [[r for r in fk_results if r["referential_integrity_pct"] > 80]]. *)
Definition valid_relationships (fk_results : list fk_result) : list fk_result :=
  filter (fun r => negb (Qle_bool (referential_integrity_pct r) 80)) fk_results.

(** [[r for r in fk_results if r["referential_integrity_pct"] <= 80]]. *)
Definition broken_relationships (fk_results : list fk_result) : list fk_result :=
  filter (fun r => Qle_bool (referential_integrity_pct r) 80) fk_results.

(** [[c for c in coverage_results if c["null_percentage"] > 30]]. *)
Definition high_null_cols (coverage_results : list coverage_record)
  : list coverage_record :=
  filter (fun c => Np.gtb (null_percentage c) 30) coverage_results.

(** [any(key in c["column"].lower() for key in [...])]. *)
Definition is_key_column (c : coverage_record) : bool :=
  existsb (fun key => Py.contains key (Py.lower (column c)))
          ["id"; "company_id"; "employment_id"; "keyword_set_id"].

Definition key_columns (coverage_results : list coverage_record)
  : list coverage_record :=
  filter is_key_column coverage_results.

(** [generate_report(datasets, fk_results, coverage_results)]: what it
    prints, one string per [print]. *)
Definition generate_report (datasets : Py.dict DataFrame)
  (fk_results : list fk_result) (coverage_results : list coverage_record)
  : list string :=
  let total_rows := fold_right Z.add 0 (map (fun kv => len (snd kv)) datasets) in
  let strong := valid_relationships fk_results in
  let broken := broken_relationships fk_results in
  let high := high_null_cols coverage_results in
  let keys := key_columns coverage_results in
  List.concat
    [ [ Py.nl ++ Py.repeat_str "=" 80;
        "DEMANDBASE DATASET RELATIONSHIP ANALYSIS";
        Py.repeat_str "=" 80;
        Py.nl ++ "DATASET SUMMARY:";
        "Total files: " ++ Py.str_int (Z.of_nat (List.length datasets));
        "Total rows: " ++ Py.fmt_thousands total_rows ];
      map (fun kv =>
             "  " ++ fst kv ++ ": " ++ Py.fmt_thousands (len (snd kv))
             ++ " rows × "
             ++ Py.str_int (Z.of_nat (List.length (columns (snd kv))))
             ++ " columns") datasets;
      [ Py.nl ++ "FOREIGN KEY RELATIONSHIP ANALYSIS:";
        Py.repeat_str "-" 60;
        "Strong relationships (>80% integrity): "
        ++ Py.str_int (Z.of_nat (List.length strong));
        "Broken relationships (≤80% integrity): "
        ++ Py.str_int (Z.of_nat (List.length broken));
        Py.nl ++ "STRONG RELATIONSHIPS:" ];
      flat_map relationship_lines strong;
      [ Py.nl ++ "BROKEN RELATIONSHIPS:" ];
      flat_map relationship_lines broken;
      [ Py.nl ++ "DATA QUALITY SUMMARY:";
        Py.repeat_str "-" 60;
        "Columns with >30% nulls: " ++ Py.str_int (Z.of_nat (List.length high));
        "Key columns analyzed: " ++ Py.str_int (Z.of_nat (List.length keys));
        Py.nl ++ "KEY COLUMN QUALITY:" ];
      map (fun col =>
             "  " ++ table col ++ " | " ++ column col ++ ": "
             ++ Np.str (null_percentage col) ++ "% null, "
             ++ Py.fmt_thousands (unique_values col) ++ " unique") keys ].



End RelationshipAnalyzer.

(** ** analyze_datasets.py *)

Module AnalyzeDatasets.
Import Pd.

(** The expected schemas: file name, then column name and expected dtype. *)
Definition SCHEMAS : Py.dict (Py.dict string) :=
  [ ("db_company_intent_geo_weekly_file_sample.csv",
     [ ("company_id", "int64"); ("domain", "object");
       ("start_date", "object"); ("end_date", "object");
       ("duration_type", "object"); ("keyword_set_id", "int64");
       ("keyword_set", "object"); ("keyword", "object");
       ("country", "object"); ("census_division", "object");
       ("region", "object"); ("city", "object");
       ("num_people_researching", "int64"); ("intent_strength", "object");
       ("partition_date", "object") ]);
    ("db_company_intent_geo_weekly_keywordset_contact_scores_file_sample.csv",
     [ ("dt", "object"); ("keyword_set_id", "int64"); ("company_id", "int64");
       ("employment_id", "int64"); ("intent_score", "int64");
       ("partition_date", "object") ]);
    ("db_company_file_sample.csv",
     [ ("company_id", "int64"); ("employees", "float64");
       ("revenue", "float64"); ("isroot", "int64"); ("best_domain", "bool") ]);
    ("db_company_full_file_sample.csv",
     [ ("company_id", "int64"); ("employees", "float64");
       ("revenue", "float64"); ("isroot", "float64"); ("sic", "float64") ]);
    ("db_contacts_file_sample.csv",
     [ ("executive_id", "int64"); ("employment_id", "int64");
       ("company_id", "int64"); ("revenue_usd", "float64");
       ("employees", "float64"); ("sic_us", "float64"); ("naics", "float64");
       ("equifax_id", "float64") ]);
    ("db1_keyword_sets_file_sample.csv",
     [ ("id", "int64"); ("competitive", "bool") ]);
    ("db1_keyword_set_keywords_file_sample.csv",
     [ ("keyword_set_id", "int64") ]) ].

(** What one schema entry appends to [mismatches]. *)
Definition mismatch_entry (df : DataFrame) (col expected_type : string)
  : result (list string) :=
  if has_column df col then
    dt <- dtype_of df col ;;
    let actual_type := dtype_str dt in
    if String.eqb expected_type "bool"
       && negb (Py.mem actual_type ["bool"; "boolean"])
    then Ok [col ++ ": expected bool, got " ++ actual_type]
    else if Py.mem expected_type ["int64"; "float64"]
            && Py.contains "object" actual_type
    then Ok [col ++ ": expected numeric, got " ++ actual_type]
    else Ok []
  else Ok [].

(** The [for col, expected_type in schema.items()] loop. *)
Fixpoint schema_loop (df : DataFrame) (items : list (string * string))
  (mismatches : list string) : result (list string) :=
  match items with
  | [] => Ok mismatches
  | (col, expected_type) :: rest =>
      entry <- mismatch_entry df col expected_type ;;
      schema_loop df rest (mismatches ++ entry)
  end.

(** The mismatch list of a file against a table of schemas. *)
Definition mismatches_with (schemas : Py.dict (Py.dict string))
  (name : string) (df : DataFrame) : result (list string) :=
  if Py.has_key schemas name then
    schema <- Py.getitem schemas name ;;
    schema_loop df schema []
  else Ok [].

Definition type_mismatch_list (name : string) (df : DataFrame)
  : result (list string) :=
  mismatches_with SCHEMAS name df.

(** The statistics kept for a file.  The byte sizes ([file_size_mb],
    [memory_usage_mb]) and the parsed [date_range] are left out. *)
Record stats := {
  file : string;
  n_rows : Z;
  n_columns : Z;
  total_nulls : Z;
  columns_with_nulls : Z;
  null_percentage : Np.npfloat;
  type_mismatches : Z;
  mismatch_details : string;
  unique_companies : option Z;
  unique_contacts : option Z;
  unique_keywords : option Z
}.

(** [df.isnull().sum()]: the null count of each column. *)
Definition null_counts (df : DataFrame) : list Z :=
  map (fun i => isnull_sum (map (fun r => nth i r None) (rows df)))
      (seq 0 (List.length (header df))).

Definition zsum (l : list Z) : Z := fold_right Z.add 0 l.

(** [df[col].nunique()] under its [if col in df.columns] guard. *)
Definition unique_if_present (df : DataFrame) (col : string)
  : result (option Z) :=
  if has_column df col then
    cells <- getitem df col ;; Ok (Some (nunique cells))
  else Ok None.

(** The statistics of one parsed file (the loop body past [read_csv]). *)
Definition file_stats (name : string) (df : DataFrame) : result stats :=
  let rows_ := len df in
  let columns_ := Z.of_nat (List.length (columns df)) in
  let nulls := null_counts df in
  let total := zsum nulls in
  mismatches <- type_mismatch_list name df ;;
  companies <- unique_if_present df "company_id" ;;
  contacts <- unique_if_present df "employment_id" ;;
  keywords <- unique_if_present df "keyword" ;;
  Ok {| file := name;
        n_rows := rows_;
        n_columns := columns_;
        total_nulls := total;
        columns_with_nulls :=
          Z.of_nat (List.length (filter (fun n => n >? 0) nulls));
        null_percentage :=
          Np.round2 (Np.scale (Np.true_divide total (rows_ * columns_)) 100);
        type_mismatches := Z.of_nat (List.length mismatches);
        mismatch_details :=
          Py.join ", " (firstn 3 mismatches)
          ++ (if (3 <? List.length mismatches)%nat then "..." else "");
        unique_companies := companies;
        unique_contacts := contacts;
        unique_keywords := keywords |}.

(** [sorted(paths)]: by name. *)
Fixpoint insert_sorted (f : string * csv) (l : list (string * csv))
  : list (string * csv) :=
  match l with
  | [] => [f]
  | g :: rest =>
      if String.leb (fst f) (fst g) then f :: l else g :: insert_sorted f rest
  end.

Definition sorted (l : list (string * csv)) : list (string * csv) :=
  fold_right insert_sorted [] l.

Section Overview.

(** [pd.read_csv(csv_file)]. *)
Variable read_csv : csv -> result DataFrame.

(** The [for csv_file in csv_files] loop: [read_csv] is called outside any
    [try], so its exception leaves the function. *)
Fixpoint analyze_loop (csv_files : list (string * csv))
  (results : list stats) (out : list string)
  : result (list stats) * list string :=
  match csv_files with
  | [] => (Ok results, out)
  | (name, content) :: rest =>
      let out1 := List.app out ["Analyzing " ++ name ++ "..."] in
      match df <- read_csv content ;; file_stats name df with
      | Ok st => analyze_loop rest (results ++ [st]) out1
      | Raise e => (Raise e, out1)
      end
  end.

(** [analyze_csv_files(directory)]; a directory that does not exist has
    no files. *)
Definition analyze_csv_files (fs : filesystem) (directory_ : string)
  : result (list stats) * list string :=
  let csv_files :=
    match Py.get fs directory_ with
    | Some d => sorted (glob_csv d)
    | None => []
    end in
  analyze_loop csv_files [] [].

End Overview.

End AnalyzeDatasets.

(** ** sampler.py *)

Module Sampler.
Import Pd.

Section Run.

(** [pd.read_csv(csv_file, dtype=str, low_memory=False)]. *)
Variable read_csv_str : csv -> result DataFrame.

(** What the loop body writes for one parsed table: the output name and
    the frame handed to [to_csv]. *)
Definition sample_of (name : string) (df : DataFrame) : string * DataFrame :=
  if len df <=? 500
  then ("copy_" ++ name, df)
  else ("sample_" ++ name, head 500 df).

(** The [for csv_file in csv_files] loop over the samples directory; an
    exception of [read_csv] stops the script with the files written so
    far left in place. *)
Fixpoint sampler_loop (csv_files : list (string * csv)) (samples : directory)
  : directory * option exn :=
  match csv_files with
  | [] => (samples, None)
  | (name, content) :: rest =>
      match read_csv_str content with
      | Ok df =>
          let '(out_name, out_df) := sample_of name df in
          sampler_loop rest (Py.setitem samples out_name (Csv.to_csv out_df))
      | Raise e => (samples, Some e)
      end
  end.

(** The script: the samples directory is emptied, then filled from the
    CSV files of the datasets directory. *)
Definition sampler (datasets_dir : directory) : directory * option exn :=
  sampler_loop (glob_csv datasets_dir) [].

End Run.

End Sampler.

(** ** Vocabulary of the properties *)

Module Spec.
Import Pd RelationshipAnalyzer.

(** The relationship a result entry reports on. *)
Definition key_of (e : fk_result) : relationship :=
  (parent_table e, parent_key e, child_table e, child_key e).

(** A table is among the loaded ones. *)
Definition loaded (datasets : Py.dict DataFrame) (t : string) : bool :=
  match Py.get datasets t with Some _ => true | None => false end.

(** A loaded table has the column. *)
Definition has_key_column (datasets : Py.dict DataFrame) (t c : string) : bool :=
  match Py.get datasets t with
  | Some df => has_column df c
  | None => false
  end.

(** The relationship cannot be evaluated: a table is not loaded or a key
    column is absent from its table. *)
Definition unevaluable (datasets : Py.dict DataFrame) (r : relationship) : bool :=
  let '(pt, pk, ct, ck) := r in
  negb (loaded datasets pt) || negb (loaded datasets ct)
  || negb (has_key_column datasets pt pk)
  || negb (has_key_column datasets ct ck).

(** The cells of a column that hold a value. *)
Definition non_null_count (cells : list cell) : Z :=
  Z.of_nat (List.length (dropna cells)).


(** The integrity percentage before rounding: valid / total * 100, and
    0 when there is no reference. *)
Definition integrity_of (valid total : Z) : Q :=
  if total >? 0 then (inject_Z valid / inject_Z total * 100)%Q else 0%Q.

(** The entries one pass of the relationship loop appends. *)
Definition fk_entries (datasets : Py.dict DataFrame) (r : relationship)
  : list fk_result :=
  match fk_step datasets r with
  | Ok l => l
  | Raise _ => []
  end.

(** The characters of a text, last first. *)
Definition backwards (s : string) : list ascii := rev (list_ascii_of_string s).

(** The mismatch message of a numeric column read as text. *)
Definition numeric_message (col : string) : string :=
  col ++ ": expected numeric, got object".

(** The entries one schema column appends to the mismatch list. *)
Definition mismatch_entries (df : DataFrame) (col expected_type : string)
  : list string :=
  match AnalyzeDatasets.mismatch_entry df col expected_type with
  | Ok l => l
  | Raise _ => []
  end.

(** A record as the sampler writes it back: one field per header name, a
    missing-value marker written as the empty field. *)
Definition written_record (width : nat) (r : list string) : list string :=
  map (fun i => let f := nth i r "" in if Csv.is_na f then "" else f)
      (seq 0 width).

(** The relationship can be evaluated. *)
Definition evaluable (datasets : Py.dict DataFrame) (r : relationship) : bool :=
  negb (unevaluable datasets r).

(** The texts of the non-null values of a column. *)
Definition key_texts (cells : list cell) : list string :=
  astype_str (dropna cells).

(** The columns of the loaded tables, table by table: file name, table
    and column name. *)
Definition column_sites (datasets : Py.dict DataFrame)
  : list (string * DataFrame * string) :=
  flat_map (fun kv => map (fun c => (fst kv, snd kv, c)) (columns (snd kv)))
           datasets.

(** The file parses. *)
Definition parses (read_csv : csv -> result DataFrame) (f : string * csv) : bool :=
  match read_csv (snd f) with Ok _ => true | Raise _ => false end.

(** The name the sampler writes a file under. *)
Definition out_name (read_csv_str : csv -> result DataFrame) (f : string * csv)
  : string :=
  match read_csv_str (snd f) with
  | Ok df => fst (Sampler.sample_of (fst f) df)
  | Raise _ => ""
  end.

(** Order of names, as [sorted] compares them. *)
Definition name_le (a b : string) : Prop := String.leb a b = true.


(** Order of two files, by name. *)
Definition file_le (f g : string * csv) : Prop := name_le (fst f) (fst g).

(** The files up to the first one that does not parse. *)
Fixpoint ok_prefix (read_csv : csv -> result DataFrame)
  (files : list (string * csv)) : list (string * csv) :=
  match files with
  | [] => []
  | f :: rest =>
      if parses read_csv f then f :: ok_prefix read_csv rest else []
  end.

End Spec.

(** ** Sample inputs *)

Module Examples.
Import Pd RelationshipAnalyzer.

(** Parent keys 1, 2, 3. *)
Definition keyword_sets : csv :=
  [ ["id"; "name"]; ["1"; "a"]; ["2"; "b"]; ["3"; "c"] ].

(** Child keys 1, 2, 5 and a missing one. *)
Definition keyword_set_keywords : csv :=
  [ ["keyword_set_id"; "keyword"];
    ["1"; "x"]; ["2"; "y"]; ["5"; "z"]; [""; "w"] ].

(** Child keys 1, 2, 5, none missing. *)
Definition keyword_set_keywords_full : csv :=
  [ ["keyword_set_id"; "keyword"]; ["1"; "x"]; ["2"; "y"]; ["5"; "z"] ].

(** Companies without a parent: the hierarchy columns are empty. *)
Definition companies : csv :=
  [ ["company_id"; "parent_id"; "name"];
    ["10"; ""; "acme"]; ["11"; ""; "bolt"] ].


(** An empty file, which [read_csv] rejects. *)
Definition empty_file : csv := [].

Definition datasets_dir : directory :=
  [ ("db1_keyword_sets_file_sample.csv", keyword_sets);
    ("db1_keyword_set_keywords_file_sample.csv", keyword_set_keywords);
    ("db_company_file_sample.csv", companies);
    ("broken.csv", empty_file);
    ("notes.txt", [ ["not a table"] ]) ].

Definition fs : filesystem :=
  [ ("private/datasets", datasets_dir); ("private/empty", [ ("notes.txt", []) ]) ].

Definition tables_of (r : result (Py.dict DataFrame)) : Py.dict DataFrame :=
  match r with Ok d => d | Raise _ => [] end.

(** The tables [load_datasets] returns for [fs]. *)
Definition datasets : Py.dict DataFrame :=
  tables_of (fst (load_datasets Csv.read_csv fs "private/datasets")).

(** The same directory with every child key present. *)
Definition datasets_full : Py.dict DataFrame :=
  tables_of (fst (load_datasets Csv.read_csv
    [ ("d", [ ("db1_keyword_sets_file_sample.csv", keyword_sets);
              ("db1_keyword_set_keywords_file_sample.csv",
               keyword_set_keywords_full) ]) ] "d")).

(** The directory of the end-to-end example: the parent keys 1, 2, 3 and
    the child keys 1, 2, 5 and a missing one. *)
Definition fs_keywords : filesystem :=
  [ ("private/datasets",
     [ ("db1_keyword_sets_file_sample.csv", keyword_sets);
       ("db1_keyword_set_keywords_file_sample.csv", keyword_set_keywords) ]) ].

(** The child table as a frame that holds the integers themselves next to
    the missing value (dtype object), which [read_csv] does not produce. *)
Definition keywords_as_objects : DataFrame :=
  {| header := [("keyword_set_id", object); ("keyword", object)];
     rows := [ [Some (SInt 1); Some (SStr "x")];
               [Some (SInt 2); Some (SStr "y")];
               [Some (SInt 5); Some (SStr "z")];
               [None; Some (SStr "w")] ] |}.

Definition datasets_objects : Py.dict DataFrame :=
  Py.setitem datasets_full "db1_keyword_set_keywords_file_sample.csv"
    keywords_as_objects.

(** The entry the specification expects for the end-to-end example. *)
Definition entry_expected : fk_result :=
  {| parent_table := "db1_keyword_sets_file_sample.csv";
     parent_key := "id";
     child_table := "db1_keyword_set_keywords_file_sample.csv";
     child_key := "keyword_set_id";
     parent_unique_values := 3;
     child_total_refs := 3;
     valid_refs := 2;
     invalid_refs := 1;
     referential_integrity_pct := 6667 # 100;
     relationship_type := "foreign_key" |}.

(** A table with a header and no row, as [read_csv] returns it. *)
Definition frame_header_only : DataFrame :=
  {| header := [("id", object); ("name", object)]; rows := [] |}.

(** Three rows, one of them without a note. *)
Definition notes : csv :=
  [ ["id"; "note"]; ["1"; "a"]; ["2"; ""]; ["3"; "c"] ].

Definition frame_notes : DataFrame :=
  {| header := [("id", int64); ("note", object)];
     rows := [ [Some (SInt 1); Some (SStr "a")];
               [Some (SInt 2); None];
               [Some (SInt 3); Some (SStr "c")] ] |}.

Definition coverage_note : coverage_record :=
  {| table := "notes.csv"; column := "note"; total_rows := 3;
     null_count := 1; null_percentage := Np.Finite (3333 # 100);
     unique_values := 2; data_type := "object" |}.

Definition coverage_empty_id : coverage_record :=
  {| table := "t.csv"; column := "id"; total_rows := 0;
     null_count := 0; null_percentage := Np.NaN;
     unique_values := 0; data_type := "object" |}.


(** A keyword-set file whose ids are not numbers. *)
Definition keyword_sets_text_ids : csv :=
  [ ["id"; "competitive"; "owner"]; ["ks-1"; "True"; "ann"]; ["ks-2"; "False"; "bob"] ].

Definition frame_text_ids : DataFrame :=
  {| header := [("id", object); ("competitive", bool_); ("owner", object)];
     rows := [ [Some (SStr "ks-1"); Some (SBool true); Some (SStr "ann")];
               [Some (SStr "ks-2"); Some (SBool false); Some (SStr "bob")] ] |}.

(** A file of 501 records. *)
Definition long_file : csv :=
  ["n"; "label"]
  :: map (fun i => [Py.str_int (Z.of_nat i); "row"]) (seq 1 501).

(** The frame [read_csv] with [dtype=str] returns for [long_file]. *)
Definition long_frame : DataFrame :=
  match Csv.read_csv_str long_file with
  | Ok df => df
  | Raise _ => {| header := []; rows := [] |}
  end.


(** What the analyzer reports on [datasets]. *)
Definition entry_keywords : fk_result :=
  {| parent_table := "db1_keyword_sets_file_sample.csv";
     parent_key := "id";
     child_table := "db1_keyword_set_keywords_file_sample.csv";
     child_key := "keyword_set_id";
     parent_unique_values := 3;
     child_total_refs := 3;
     valid_refs := 0;
     invalid_refs := 3;
     referential_integrity_pct := 0;
     relationship_type := "foreign_key" |}.

Definition entry_hierarchy : fk_result :=
  {| parent_table := "db_company_file_sample.csv";
     parent_key := "company_id";
     child_table := "db_company_file_sample.csv";
     child_key := "parent_id";
     parent_unique_values := 2;
     child_total_refs := 0;
     valid_refs := 0;
     invalid_refs := 0;
     referential_integrity_pct := 0;
     relationship_type := "self-referencing" |}.

Definition results : list fk_result := [entry_keywords; entry_hierarchy].

(** A declared relationship whose child table is not in [datasets_dir]. *)
Definition contacts_of_companies : relationship :=
  ("db_company_file_sample.csv", "company_id",
   "db_contacts_file_sample.csv", "company_id").

(** A declared relationship whose child key is not a column of [companies]. *)
Definition ultimate_parents : relationship :=
  ("db_company_file_sample.csv", "company_id",
   "db_company_file_sample.csv", "ultimate_parent_id").

(** A key column with a repeated key and a missing one. *)
Definition keys_with_repeat : list cell :=
  [Some (SInt 7); None; Some (SInt 7); Some (SInt 9)].

(** The same keys, each once, in another order. *)
Definition keys_distinct : list cell := [Some (SInt 9); Some (SInt 7)].

Definition hierarchy : relationship :=
  ("db_company_file_sample.csv", "company_id",
   "db_company_file_sample.csv", "parent_id").

(** A directory whose listing is not in the order of the names. *)
Definition dir_unsorted : directory :=
  [ ("notes.csv", notes); ("readme.txt", []);
    ("db1_keyword_sets_file_sample.csv", keyword_sets_text_ids) ].

Definition fs_unsorted : filesystem := [ ("d", dir_unsorted) ].

(** A datasets directory whose second CSV file does not parse. *)
Definition sampler_dir_broken : directory :=
  [ ("db1_keyword_sets_file_sample.csv", keyword_sets);
    ("broken.csv", empty_file);
    ("notes.csv", notes) ].

(** A datasets directory whose company file does not parse. *)
Definition dir_companies_broken : directory :=
  [ ("db1_keyword_sets_file_sample.csv", keyword_sets);
    ("db_company_file_sample.csv", empty_file) ].

Definition fs_companies_broken : filesystem :=
  [ ("private/datasets", dir_companies_broken) ].

End Examples.

(** * Properties *)

(** ** Rounding *)

Lemma round_half_even_bounds (q : Q) (a b : Z) :
  (inject_Z a <= q)%Q -> (q <= inject_Z b)%Q ->
  a <= Py.round_half_even q <= b.
Proof.
  intros Ha Hb.
  assert (Hfa : a <= Qfloor q).
  { rewrite <- (Qfloor_Z a). now apply Qfloor_resp_le. }
  assert (Hfb : Qfloor q <= b).
  { rewrite <- (Qfloor_Z b). now apply Qfloor_resp_le. }
  unfold Py.round_half_even.
  destruct (Z.eq_dec (Qfloor q) b) as [E | NE].
  - (* the floor is already the upper bound: the value is that integer *)
    assert (Hq : (q == inject_Z b)%Q).
    { apply Qle_antisym; [exact Hb|]. rewrite <- E. apply Qfloor_le. }
    assert (Hr : ((q - inject_Z (Qfloor q)) ?= 1 # 2)%Q = Lt).
    { rewrite E. apply Qlt_alt. rewrite Hq. unfold Qminus.
      rewrite Qplus_opp_r. reflexivity. }
    rewrite Hr. lia.
  - destruct ((q - inject_Z (Qfloor q)) ?= 1 # 2)%Q;
      try destruct (Z.even (Qfloor q)); lia.
Qed.

Lemma round2_bounds (q : Q) :
  (0 <= q)%Q -> (q <= 100)%Q ->
  (0 <= Py.round2 q)%Q /\ (Py.round2 q <= 100)%Q.
Proof.
  intros H0 H100. unfold Py.round2.
  assert (B : 0 <= Py.round_half_even (q * 100) <= 10000).
  { apply round_half_even_bounds.
    - change (inject_Z 0) with (0 * 100)%Q. apply Qmult_le_compat_r; [exact H0|discriminate].
    - change (inject_Z 10000) with (100 * 100)%Q.
      apply Qmult_le_compat_r; [exact H100|discriminate]. }
  rewrite Qred_correct. unfold Qle; simpl. lia.
Qed.

Lemma round2_zero : Py.round2 0 = 0%Q.
Proof. reflexivity. Qed.

(** ** Text *)

Section Text.
Import Spec.

Lemma list_ascii_of_string_app (a b : string) :
  list_ascii_of_string (a ++ b)
  = (list_ascii_of_string a ++ list_ascii_of_string b)%list.
Proof. induction a as [| c a IH]; simpl; [reflexivity | now rewrite IH]. Qed.

Lemma backwards_app (a b : string) :
  backwards (a ++ b) = (backwards b ++ backwards a)%list.
Proof. unfold backwards. now rewrite list_ascii_of_string_app, rev_app_distr. Qed.

Lemma backwards_inj (a b : string) : backwards a = backwards b -> a = b.
Proof.
  unfold backwards. intros H.
  apply (f_equal (@rev ascii)) in H. rewrite !rev_involutive in H.
  apply (f_equal string_of_list_ascii) in H.
  now rewrite !string_of_list_ascii_of_string in H.
Qed.

Lemma append_inv_tail (a b s : string) : a ++ s = b ++ s -> a = b.
Proof.
  intros H. apply (f_equal backwards) in H. rewrite !backwards_app in H.
  apply app_inv_head in H. now apply backwards_inj.
Qed.




End Text.

(** ** The relationship analyzer *)

Section ForeignKeys.
Import Pd RelationshipAnalyzer Spec.

Lemma dropna_length (cells : list cell) :
  List.length (dropna cells)
  = List.length (filter (fun c => match c with Some _ => true | None => false end) cells).
Proof.
  induction cells as [| [v |] rest IH]; simpl; congruence.
Qed.

Lemma filter_length_le {A} (f : A -> bool) (l : list A) :
  (List.length (filter f l) <= List.length l)%nat.
Proof.
  induction l as [| x l IH]; simpl; [lia|]. destruct (f x); simpl; lia.
Qed.

Lemma integrity_of_bounds (valid total : Z) :
  0 <= valid <= total ->
  (0 <= integrity_of valid total)%Q /\ (integrity_of valid total <= 100)%Q.
Proof.
  intros [Hv Ht]. unfold integrity_of.
  destruct (total >? 0) eqn:G; [|split; discriminate].
  apply Z.gtb_lt in G.
  assert (Hpos : (0 < inject_Z total)%Q) by (unfold Qlt; simpl; lia).
  assert (Hr0 : (0 <= inject_Z valid / inject_Z total)%Q).
  { apply Qle_shift_div_l; [exact Hpos|]. rewrite Qmult_0_l.
    unfold Qle; simpl; lia. }
  assert (Hr1 : (inject_Z valid / inject_Z total <= 1)%Q).
  { apply Qle_shift_div_r; [exact Hpos|]. rewrite Qmult_1_l.
    unfold Qle; simpl; lia. }
  split.
  - change 0%Q with (0 * 100)%Q. apply Qmult_le_compat_r; [exact Hr0|discriminate].
  - change 100%Q with (1 * 100)%Q at 2.
    apply Qmult_le_compat_r; [exact Hr1|discriminate].
Qed.

(** [k in d] says whether [d] has an entry for [k]. *)
Lemma has_key_get {V} (d : Py.dict V) (k : string) :
  Py.has_key d k = match Py.get d k with Some _ => true | None => false end.
Proof.
  unfold Py.has_key, Py.mem, Py.keys.
  induction d as [| [k0 v0] rest IH]; simpl; [reflexivity|].
  destruct (String.eqb k k0); simpl; [reflexivity | exact IH].
Qed.

Lemma index_of_mem (c : string) (cs : list string) :
  Py.mem c cs = match index_of c cs with Some _ => true | None => false end.
Proof.
  unfold Py.mem. induction cs as [| c' rest IH]; simpl; [reflexivity|].
  destruct (String.eqb c c'); simpl; [reflexivity|].
  rewrite IH. now destruct (index_of c rest).
Qed.

(** [col in df.columns] says whether [df[col]] finds the column. *)
Lemma has_column_getitem (df : DataFrame) (c : string) :
  has_column df c = match getitem df c with Ok _ => true | Raise _ => false end.
Proof.
  unfold has_column, getitem. rewrite index_of_mem.
  now destruct (index_of c (columns df)).
Qed.

(** The loop body never raises, and these are the fields it reports. *)
Lemma fk_metrics_ok (r : relationship) (parent_col child_col : list cell) :
  exists e,
    fk_metrics r parent_col child_col = Ok e
    /\ key_of e = r
    /\ child_total_refs e = count_notna child_col
    /\ 0 <= valid_refs e <= child_total_refs e
    /\ invalid_refs e = child_total_refs e - valid_refs e
    /\ referential_integrity_pct e
       = Py.round2 (integrity_of (valid_refs e) (child_total_refs e))
    /\ relationship_type e
       = (if String.eqb (parent_table e) (child_table e)
          then "self-referencing" else "foreign_key")
    /\ parent_unique_values e
       = Z.of_nat (List.length (Py.set (astype_str (dropna parent_col))))
    /\ valid_refs e
       = Z.of_nat (List.length
           (filter (fun v => Py.mem v (Py.set (astype_str (dropna parent_col))))
                   (astype_str (dropna child_col)))).
Proof.
  destruct r as [[[pt pk] ct] ck]. unfold fk_metrics, integrity_of.
  set (pv := Py.set (astype_str (dropna parent_col))).
  set (total := count_notna child_col).
  set (valid := Z.of_nat (List.length
                 (filter (fun v => Py.mem v pv) (astype_str (dropna child_col))))).
  assert (Hle : 0 <= valid <= total).
  { unfold valid, total, count_notna. split; [lia|].
    apply Nat2Z.inj_le.
    eapply Nat.le_trans; [apply filter_length_le|].
    unfold astype_str. rewrite length_map, dropna_length. lia. }
  destruct (total >? 0) eqn:G.
  - pose proof (proj1 (Z.gtb_lt _ _) G) as G'. unfold Py.truediv.
    assert (E : (total =? 0) = false) by (apply Z.eqb_neq; lia).
    rewrite E. cbn [bind]. eexists. split; [reflexivity|].
    unfold key_of.
    cbn [parent_table parent_key child_table child_key child_total_refs
         valid_refs invalid_refs referential_integrity_pct relationship_type
         parent_unique_values].
    fold total. rewrite G. repeat split; try reflexivity; lia.
  - cbn [bind]. eexists. split; [reflexivity|].
    unfold key_of.
    cbn [parent_table parent_key child_table child_key child_total_refs
         valid_refs invalid_refs referential_integrity_pct relationship_type
         parent_unique_values].
    fold total. rewrite G. repeat split; try reflexivity; lia.
Qed.

(** One pass of the loop by cases: behind its guards the lookups find
    what they look for, so no [KeyError] is raised. *)
Lemma fk_step_cases (datasets : Py.dict DataFrame) (r : relationship) :
  fk_step datasets r
  = match Py.get datasets (fst (fst (fst r))), Py.get datasets (snd (fst r)) with
    | Some parent_df, Some child_df =>
        match getitem parent_df (snd (fst (fst r))), getitem child_df (snd r) with
        | Ok parent_col, Ok child_col =>
            entry <- fk_metrics r parent_col child_col ;; Ok [entry]
        | _, _ => Ok []
        end
    | _, _ => Ok []
    end.
Proof.
  destruct r as [[[pt pk] ct] ck]. unfold fk_step. cbn [fst snd].
  rewrite !has_key_get. unfold Py.getitem.
  destruct (Py.get datasets pt) as [pdf |]; [|reflexivity].
  destruct (Py.get datasets ct) as [cdf |]; [|reflexivity].
  cbn [negb orb bind]. rewrite !has_column_getitem.
  destruct (getitem pdf pk) as [pc | e1]; [|reflexivity].
  destruct (getitem cdf ck) as [cc | e2]; reflexivity.
Qed.

(** One pass appends nothing or one entry, and never raises. *)
Lemma fk_step_ok (datasets : Py.dict DataFrame) (r : relationship) :
  exists l, fk_step datasets r = Ok l
            /\ forall e, In e l -> key_of e = r.
Proof.
  rewrite fk_step_cases.
  destruct (Py.get datasets _) as [pdf |]; [|exists []; split; [reflexivity|contradiction]].
  destruct (Py.get datasets _) as [cdf |]; [|exists []; split; [reflexivity|contradiction]].
  destruct (getitem pdf _) as [pc | e1]; [|exists []; split; [reflexivity|contradiction]].
  destruct (getitem cdf _) as [cc | e2]; [|exists []; split; [reflexivity|contradiction]].
  destruct (fk_metrics_ok r pc cc) as (e & He & Hk & _).
  rewrite He. cbn [bind]. exists [e]. split; [reflexivity|].
  intros e' [<- | []]. exact Hk.
Qed.

Lemma fk_loop_ok (datasets : Py.dict DataFrame) (rels : list relationship)
  (results : list fk_result) :
  fk_loop datasets rels results
  = Ok (results ++ flat_map (fk_entries datasets) rels)%list.
Proof.
  revert results. induction rels as [| r rest IH]; intros results; simpl.
  - now rewrite app_nil_r.
  - unfold fk_entries at 1.
    destruct (fk_step_ok datasets r) as (l & Hl & _). rewrite Hl. cbn [bind].
    rewrite IH, <- app_assoc. reflexivity.
Qed.

(** [analyze_foreign_keys] returns on every input. *)
Lemma analyze_foreign_keys_ok (datasets : Py.dict DataFrame) :
  analyze_foreign_keys datasets
  = Ok (flat_map (fk_entries datasets) relationships).
Proof. unfold analyze_foreign_keys. now rewrite fk_loop_ok. Qed.

(** Every reported entry is the metrics of a declared relationship whose
    tables and key columns were found. *)
Lemma analyze_foreign_keys_entry (datasets : Py.dict DataFrame)
  (results : list fk_result) (e : fk_result) :
  analyze_foreign_keys datasets = Ok results -> In e results ->
  exists r pdf cdf pc cc,
    In r relationships
    /\ Py.get datasets (fst (fst (fst r))) = Some pdf
    /\ Py.get datasets (snd (fst r)) = Some cdf
    /\ getitem pdf (snd (fst (fst r))) = Ok pc
    /\ getitem cdf (snd r) = Ok cc
    /\ fk_metrics r pc cc = Ok e.
Proof.
  rewrite analyze_foreign_keys_ok. intros H Hin.
  assert (E : results = flat_map (fk_entries datasets) relationships)
    by congruence.
  rewrite E in Hin. clear E H.
  apply in_flat_map in Hin. destruct Hin as (r & Hr & He).
  exists r. unfold fk_entries in He. rewrite fk_step_cases in He.
  destruct (Py.get datasets (fst (fst (fst r)))) as [pdf |] eqn:Hp; [|contradiction].
  destruct (Py.get datasets (snd (fst r))) as [cdf |] eqn:Hc; [|contradiction].
  destruct (getitem pdf (snd (fst (fst r)))) as [pc | e1] eqn:Hpk; [|contradiction].
  destruct (getitem cdf (snd r)) as [cc | e2] eqn:Hck; [|contradiction].
  destruct (fk_metrics_ok r pc cc) as (e0 & He0 & _).
  rewrite He0 in He. cbn [bind] in He. destruct He as [<- | []].
  exists pdf, cdf, pc, cc. repeat split; assumption.
Qed.

End ForeignKeys.

Section ForeignKeyClaims.
Import Pd RelationshipAnalyzer Spec.

(** C1.  For every relationship the analyzer evaluates, the entry it
    reports satisfies valid_refs + invalid_refs = child_total_refs and
    0 <= referential_integrity_pct <= 100. *)
Theorem C1_counts_and_percentage_bounds
  (datasets : Py.dict DataFrame) (results : list fk_result) (e : fk_result) :
  analyze_foreign_keys datasets = Ok results ->
  In e results ->
  valid_refs e + invalid_refs e = child_total_refs e
  /\ (0 <= referential_integrity_pct e)%Q
  /\ (referential_integrity_pct e <= 100)%Q.
Proof.
  intros Hrun Hin.
  destruct (analyze_foreign_keys_entry _ _ _ Hrun Hin)
    as (r & pdf & cdf & pc & cc & _ & _ & _ & _ & _ & Hm).
  destruct (fk_metrics_ok r pc cc) as (e' & He' & _ & _ & Hv & Hi & Hp & _).
  assert (e' = e) by congruence. subst e'.
  split; [lia|]. rewrite Hp.
  apply round2_bounds; apply integrity_of_bounds; exact Hv.
Qed.

Lemma C1_counts_and_percentage_bounds_witness :
  analyze_foreign_keys Examples.datasets = Ok Examples.results
  /\ In Examples.entry_keywords Examples.results
  /\ (valid_refs Examples.entry_keywords + invalid_refs Examples.entry_keywords
       = child_total_refs Examples.entry_keywords
      /\ (0 <= referential_integrity_pct Examples.entry_keywords)%Q
      /\ (referential_integrity_pct Examples.entry_keywords <= 100)%Q).
Proof.
  split; [vm_compute; reflexivity|]. split; [left; reflexivity|].
  apply (C1_counts_and_percentage_bounds Examples.datasets Examples.results).
  - vm_compute; reflexivity.
  - left; reflexivity.
Defined.

(** The pass of a relationship appends nothing exactly when the
    relationship cannot be evaluated. *)
Lemma unevaluable_step (datasets : Py.dict DataFrame) (r : relationship) :
  unevaluable datasets r = true <-> fk_step datasets r = Ok [].
Proof.
  rewrite fk_step_cases. destruct r as [[[pt pk] ct] ck].
  unfold unevaluable, loaded, has_key_column. cbn [fst snd].
  destruct (Py.get datasets pt) as [pdf |]; [|simpl; tauto].
  destruct (Py.get datasets ct) as [cdf |]; [|simpl; tauto].
  rewrite !has_column_getitem.
  destruct (getitem pdf pk) as [pc | e1]; [|simpl; tauto].
  destruct (getitem cdf ck) as [cc | e2]; [|simpl; tauto].
  cbn [negb orb].
  destruct (fk_metrics_ok (pt, pk, ct, ck) pc cc) as (e & He & _).
  rewrite He. cbn [bind]. split; discriminate.
Qed.

(** C4.  A declared relationship whose parent or child table is not
    loaded, or whose parent or child key column is absent from its table,
    gets no result entry: the analyzer returns normally and no entry of
    its results reports on that relationship. *)
Theorem C4_unevaluable_relationship_is_skipped
  (datasets : Py.dict DataFrame) (r : relationship) :
  unevaluable datasets r = true ->
  exists results,
    analyze_foreign_keys datasets = Ok results
    /\ forall e, In e results -> key_of e <> r.
Proof.
  intros Hskip. exists (flat_map (fk_entries datasets) relationships).
  split; [apply analyze_foreign_keys_ok|].
  intros e Hin Hkey. apply in_flat_map in Hin.
  destruct Hin as (r' & _ & He). unfold fk_entries in He.
  destruct (fk_step_ok datasets r') as (l & Hl & Hk).
  rewrite Hl in He. specialize (Hk e He).
  assert (r' = r) by congruence. subst r'.
  apply unevaluable_step in Hskip.
  assert (l = []) by congruence. subst l. exact He.
Qed.

Lemma C4_unevaluable_relationship_is_skipped_witness :
  In Examples.contacts_of_companies relationships
  /\ unevaluable Examples.datasets Examples.contacts_of_companies = true
  /\ exists results,
       analyze_foreign_keys Examples.datasets = Ok results
       /\ forall e, In e results -> key_of e <> Examples.contacts_of_companies.
Proof.
  split; [vm_compute; tauto|]. split; [vm_compute; reflexivity|].
  apply (C4_unevaluable_relationship_is_skipped Examples.datasets
           Examples.contacts_of_companies).
  vm_compute; reflexivity.
Defined.

(** A declared relationship that can be evaluated does get its entry. *)
Lemma evaluable_relationship_is_reported
  (datasets : Py.dict DataFrame) (r : relationship) :
  In r relationships -> unevaluable datasets r = false ->
  exists results e,
    analyze_foreign_keys datasets = Ok results
    /\ In e results /\ key_of e = r.
Proof.
  intros Hr Hev. exists (flat_map (fk_entries datasets) relationships).
  destruct (fk_step_ok datasets r) as (l & Hl & Hk).
  destruct l as [| e l'].
  - apply unevaluable_step in Hl. congruence.
  - exists e. split; [apply analyze_foreign_keys_ok|]. split.
    + apply in_flat_map. exists r. split; [exact Hr|].
      unfold fk_entries. rewrite Hl. now left.
    + apply Hk. now left.
Qed.

(** C5.  The analyzer never divides by zero: it returns on every input,
    and an entry with no non-null child key (child_total_refs = 0)
    reports a referential_integrity_pct of 0. *)
Theorem C5_no_child_reference_gives_zero (datasets : Py.dict DataFrame) :
  exists results,
    analyze_foreign_keys datasets = Ok results
    /\ forall e, In e results -> child_total_refs e = 0 ->
                 referential_integrity_pct e = 0%Q.
Proof.
  exists (flat_map (fk_entries datasets) relationships).
  split; [apply analyze_foreign_keys_ok|].
  intros e Hin Hz.
  destruct (analyze_foreign_keys_entry _ _ _ (analyze_foreign_keys_ok datasets) Hin)
    as (r & pdf & cdf & pc & cc & _ & _ & _ & _ & _ & Hm).
  destruct (fk_metrics_ok r pc cc) as (e' & He' & _ & _ & _ & _ & Hp & _).
  assert (e' = e) by congruence. subst e'.
  rewrite Hp, Hz. reflexivity.
Qed.

Lemma C5_no_child_reference_gives_zero_witness :
  analyze_foreign_keys Examples.datasets = Ok Examples.results
  /\ In Examples.entry_hierarchy Examples.results
  /\ child_total_refs Examples.entry_hierarchy = 0
  /\ referential_integrity_pct Examples.entry_hierarchy = 0%Q.
Proof.
  destruct (C5_no_child_reference_gives_zero Examples.datasets)
    as (results & Hrun & Hzero).
  assert (E : results = Examples.results).
  { assert (R : analyze_foreign_keys Examples.datasets = Ok Examples.results)
      by (vm_compute; reflexivity).
    congruence. }
  subst results.
  split; [exact Hrun|]. split; [right; left; reflexivity|].
  split; [reflexivity|].
  apply Hzero; [right; left; reflexivity | reflexivity].
Defined.

(** C6.  In every reported entry, relationship_type is "self-referencing"
    exactly when the parent table identifier equals the child table
    identifier, and "foreign_key" otherwise. *)
Theorem C6_relationship_type
  (datasets : Py.dict DataFrame) (results : list fk_result) (e : fk_result) :
  analyze_foreign_keys datasets = Ok results ->
  In e results ->
  (relationship_type e = "self-referencing" <-> parent_table e = child_table e)
  /\ (parent_table e <> child_table e -> relationship_type e = "foreign_key").
Proof.
  intros Hrun Hin.
  destruct (analyze_foreign_keys_entry _ _ _ Hrun Hin)
    as (r & pdf & cdf & pc & cc & _ & _ & _ & _ & _ & Hm).
  destruct (fk_metrics_ok r pc cc) as (e' & He' & _ & _ & _ & _ & _ & Ht & _).
  assert (e' = e) by congruence. subst e'.
  rewrite Ht. destruct (String.eqb_spec (parent_table e) (child_table e)) as [E | N].
  - split; [tauto|]. intros C; contradiction.
  - split; [|reflexivity]. split; [discriminate | contradiction].
Qed.

Lemma C6_relationship_type_witness :
  analyze_foreign_keys Examples.datasets = Ok Examples.results
  /\ In Examples.entry_hierarchy Examples.results
  /\ ((relationship_type Examples.entry_hierarchy = "self-referencing"
        <-> parent_table Examples.entry_hierarchy
            = child_table Examples.entry_hierarchy)
      /\ (parent_table Examples.entry_hierarchy
           <> child_table Examples.entry_hierarchy ->
          relationship_type Examples.entry_hierarchy = "foreign_key")).
Proof.
  split; [vm_compute; reflexivity|]. split; [right; left; reflexivity|].
  apply (C6_relationship_type Examples.datasets Examples.results).
  - vm_compute; reflexivity.
  - right; left; reflexivity.
Defined.

End ForeignKeyClaims.

(** ** Keys read from files: integers and integers stored as floats *)

Section KeyColumns.
Import Pd Csv RelationshipAnalyzer Spec.






(** C2, on the code.  The tables are read from files whose key columns
    are 1, 2, 3 (parent) and 1, 2, 5, missing (child).  The missing value
    makes pandas store the child keys as floats, [astype(str)] prints them
    as 1.0, 2.0, 5.0, and none of these texts is among the parent texts
    1, 2, 3: the analyzer reports 0 valid and 3 invalid references and an
    integrity of 0, where the specification expects 2, 1 and 66.67. *)
Theorem C2_missing_child_key_defeats_text_comparison :
  exists datasets child,
    fst (load_datasets Csv.read_csv Examples.fs_keywords "private/datasets")
    = Ok datasets
    /\ Py.get datasets "db1_keyword_set_keywords_file_sample.csv" = Some child
    /\ dtype_of child "keyword_set_id" = Ok float64
    /\ (cells <- getitem child "keyword_set_id" ;; Ok (astype_str (dropna cells)))
       = Ok ["1.0"; "2.0"; "5.0"]
    /\ analyze_foreign_keys datasets = Ok [Examples.entry_keywords].
Proof.
  do 2 eexists. split; [vm_compute; reflexivity|].
  split; [vm_compute; reflexivity|].
  split; [vm_compute; reflexivity|].
  split; vm_compute; reflexivity.
Qed.

(** With every child key present the keys stay integers and the example
    gives the expected numbers (here the child keys are 1, 2, 5). *)
Lemma example_without_missing_key :
  analyze_foreign_keys Examples.datasets_full = Ok [Examples.entry_expected].
Proof. vm_compute; reflexivity. Qed.

(** The expected numbers are also what the analyzer computes on a child
    frame that holds the integers 1, 2, 5 next to the missing value. *)
Lemma example_with_object_keys :
  analyze_foreign_keys Examples.datasets_objects = Ok [Examples.entry_expected].
Proof. vm_compute; reflexivity. Qed.

End KeyColumns.

(** ** The coverage analyzer *)

Section Coverage.
Import Pd RelationshipAnalyzer Spec.

Lemma null_and_non_null (cells : list cell) :
  isnull_sum cells + non_null_count cells = Z.of_nat (List.length cells).
Proof.
  unfold isnull_sum, non_null_count.
  induction cells as [| [v |] rest IH]; simpl List.length; simpl filter; simpl dropna;
    simpl List.length; lia.
Qed.

Lemma getitem_length (df : DataFrame) (c : string) (cells : list cell) :
  getitem df c = Ok cells -> Z.of_nat (List.length cells) = len df.
Proof.
  unfold getitem, len. destruct (index_of c (columns df)); [|discriminate].
  intros [= <-]. now rewrite length_map.
Qed.

Lemma dtype_of_columns (df : DataFrame) (c : string) :
  In c (columns df) -> exists dt, dtype_of df c = Ok dt.
Proof.
  unfold columns, dtype_of, Py.getitem.
  induction (header df) as [| [c' dt'] rest IH]; simpl.
  - contradiction.
  - intros [-> | Hin].
    + rewrite String.eqb_refl. now exists dt'.
    + destruct (String.eqb c c'); [now exists dt' | now apply IH].
Qed.

Lemma getitem_columns (df : DataFrame) (c : string) :
  In c (columns df) -> exists cells, getitem df c = Ok cells.
Proof.
  intros Hin. pose proof (has_column_getitem df c) as H.
  destruct (getitem df c) as [cells | e]; [now exists cells|].
  unfold has_column, Py.mem in H.
  assert (T : existsb (String.eqb c) (columns df) = true).
  { apply existsb_exists. exists c. split; [exact Hin | apply String.eqb_refl]. }
  congruence.
Qed.

(** The fields of the record of a column of the table. *)
Lemma coverage_of_ok (filename : string) (df : DataFrame) (col : string) :
  In col (columns df) ->
  exists rec cells,
    coverage_of filename df col = Ok rec
    /\ getitem df col = Ok cells
    /\ table rec = filename /\ column rec = col
    /\ total_rows rec = len df
    /\ null_count rec = isnull_sum cells
    /\ null_percentage rec
       = Np.round2 (Np.scale (Np.true_divide (isnull_sum cells) (len df)) 100).
Proof.
  intros Hin. unfold coverage_of.
  destruct (getitem_columns df col Hin) as (cells & Hcells).
  destruct (dtype_of_columns df col Hin) as (dt & Hdt).
  rewrite Hcells, Hdt. cbn [bind]. do 2 eexists.
  split; [reflexivity|]. split; [reflexivity|]. repeat split.
Qed.

(** The inner loop appends the record of each column, in order. *)
Lemma coverage_columns_ok (filename : string) (df : DataFrame)
  (cols : list string) (coverage : list coverage_record) :
  (forall c, In c cols -> In c (columns df)) ->
  exists recs,
    coverage_columns filename df cols coverage = Ok (coverage ++ recs)%list
    /\ Forall2 (fun c rec => coverage_of filename df c = Ok rec) cols recs.
Proof.
  revert coverage. induction cols as [| c rest IH]; intros coverage Hsub.
  - exists []. split; [simpl; now rewrite app_nil_r | constructor].
  - destruct (coverage_of_ok filename df c (Hsub c (or_introl eq_refl)))
      as (rec & cells & Hrec & _).
    destruct (IH (coverage ++ [rec])%list) as (recs & Hrun & Hall).
    { intros c' Hc'. apply Hsub. now right. }
    exists (rec :: recs). split.
    + simpl. rewrite Hrec. cbn [bind]. rewrite Hrun, <- app_assoc. reflexivity.
    + now constructor.
Qed.





(** On a table without rows the division is 0 / 0: the percentage is NaN. *)
Lemma coverage_zero_rows (filename : string) (df : DataFrame) (col : string)
  (rec : coverage_record) :
  rows df = [] ->
  coverage_of filename df col = Ok rec ->
  total_rows rec = 0 /\ null_count rec = 0 /\ null_percentage rec = Np.NaN.
Proof.
  intros Hrows. unfold coverage_of, getitem, len. rewrite Hrows.
  destruct (index_of col (columns df)); [|discriminate].
  cbn [bind]. destruct (dtype_of df col) as [dt | e]; [|discriminate].
  cbn [bind]. intros [= <-]. repeat split; reflexivity.
Qed.


End Coverage.

(** ** The dataset loader *)

Section LoaderFacts.
Import Pd RelationshipAnalyzer.

Variable read_csv : csv -> result DataFrame.

Lemma get_setitem {V} (d : Py.dict V) (k : string) (v : V) (k' : string) :
  Py.get (Py.setitem d k v) k'
  = if String.eqb k' k then Some v else Py.get d k'.
Proof.
  induction d as [| [k0 v0] rest IH]; simpl.
  - reflexivity.
  - destruct (String.eqb_spec k k0) as [-> | Hk]; simpl.
    + destruct (String.eqb k' k0); reflexivity.
    + rewrite IH. destruct (String.eqb_spec k' k0) as [-> | Hk'].
      * destruct (String.eqb_spec k0 k); [congruence | reflexivity].
      * reflexivity.
Qed.

Lemma glob_csv_in (d : directory) (f : string * csv) :
  In f (glob_csv d) -> In f d.
Proof. unfold glob_csv. intros H. apply filter_In in H. tauto. Qed.

Lemma NoDup_map_filter {A B} (g : A -> B) (p : A -> bool) (l : list A) :
  NoDup (map g l) -> NoDup (map g (filter p l)).
Proof.
  induction l as [| x l IH]; simpl; intros H; [constructor|].
  inversion H as [| ? ? Hnotin Hnd]; subst.
  destruct (p x); simpl; [|now apply IH].
  constructor; [|now apply IH].
  intros Hin. apply Hnotin. apply in_map_iff in Hin.
  destruct Hin as (y & Hy & Hf). apply filter_In in Hf.
  apply in_map_iff. exists y. tauto.
Qed.

(** A name that is not among the files keeps its table. *)
Lemma load_loop_get_other (files : list (string * csv))
  (datasets : Py.dict DataFrame) (out : list string) (name : string) :
  ~ In name (map fst files) ->
  Py.get (fst (load_loop read_csv files datasets out)) name
  = Py.get datasets name.
Proof.
  revert datasets out. induction files as [| [n c] rest IH]; intros datasets out Hnot.
  - reflexivity.
  - simpl in Hnot. simpl.
    assert (Hn : n <> name) by tauto.
    assert (Hrest : ~ In name (map fst rest)) by tauto.
    destruct (read_csv c) as [df | e]; rewrite IH by exact Hrest.
    + rewrite get_setitem.
      destruct (String.eqb_spec name n); [congruence | reflexivity].
    + reflexivity.
Qed.

(** A file that parses is in the result under its name; one that does
    not leaves the entry of its name as it was. *)
Lemma load_loop_get (files : list (string * csv))
  (datasets : Py.dict DataFrame) (out : list string)
  (name : string) (content : csv) :
  NoDup (map fst files) -> In (name, content) files ->
  Py.get (fst (load_loop read_csv files datasets out)) name
  = match read_csv content with
    | Ok df => Some df
    | Raise _ => Py.get datasets name
    end.
Proof.
  revert datasets out. induction files as [| [n c] rest IH];
    intros datasets out Hnd Hin; [contradiction|].
  simpl in Hnd. inversion Hnd as [| ? ? Hnotin Hnd']; subst.
  destruct Hin as [Heq | Hin].
  - injection Heq as -> ->. simpl.
    destruct (read_csv content) as [df | e];
      rewrite load_loop_get_other by exact Hnotin.
    + rewrite get_setitem, String.eqb_refl. reflexivity.
    + reflexivity.
  - assert (Hne : name <> n).
    { intros ->. apply Hnotin. apply in_map_iff. now exists (n, content). }
    simpl. destruct (read_csv c) as [df | e]; rewrite (IH _ _ Hnd' Hin).
    + destruct (read_csv content); [reflexivity|].
      rewrite get_setitem.
      destruct (String.eqb_spec name n); [congruence | reflexivity].
    + reflexivity.
Qed.

(** What was printed stays printed. *)
Lemma load_loop_out_prefix (files : list (string * csv))
  (datasets : Py.dict DataFrame) (out : list string) (line : string) :
  In line out -> In line (snd (load_loop read_csv files datasets out)).
Proof.
  revert datasets out. induction files as [| [n c] rest IH];
    intros datasets out Hin; [exact Hin|].
  simpl. destruct (read_csv c); apply IH; apply in_or_app; now left.
Qed.

(** The error of a file that does not parse is printed. *)
Lemma load_loop_error_logged (files : list (string * csv))
  (datasets : Py.dict DataFrame) (out : list string)
  (name : string) (content : csv) (e : exn) :
  In (name, content) files -> read_csv content = Raise e ->
  In ("  ERROR loading " ++ name ++ ": " ++ exn_str e)
     (snd (load_loop read_csv files datasets out)).
Proof.
  revert datasets out. induction files as [| [n c] rest IH];
    intros datasets out Hin He; [contradiction|].
  destruct Hin as [Heq | Hin].
  - injection Heq as -> ->. simpl. rewrite He.
    apply load_loop_out_prefix. apply in_or_app. right. now left.
  - simpl. destruct (read_csv c); now apply IH.
Qed.

(** C7.  The loader raises FileNotFoundError "Directory ... not found"
    when the directory is absent and FileNotFoundError "No CSV files
    found in ..." when it holds no CSV file.  When a CSV file fails to
    parse, the loader still returns: the error is printed, the file has
    no table, and every file that parses is loaded under its name. *)
Theorem C7_loader_failures (fs : filesystem) (data_dir : string) :
  (Py.get fs data_dir = None ->
   load_datasets read_csv fs data_dir
   = (Raise (FileNotFoundError ("Directory " ++ data_dir ++ " not found")), []))
  /\ (forall d,
        Py.get fs data_dir = Some d -> glob_csv d = [] ->
        load_datasets read_csv fs data_dir
        = (Raise (FileNotFoundError ("No CSV files found in " ++ data_dir)), []))
  /\ (forall d name content e,
        Py.get fs data_dir = Some d -> NoDup (map fst d) ->
        In (name, content) (glob_csv d) -> read_csv content = Raise e ->
        exists datasets out,
          load_datasets read_csv fs data_dir = (Ok datasets, out)
          /\ In ("  ERROR loading " ++ name ++ ": " ++ exn_str e) out
          /\ Py.get datasets name = None
          /\ forall name' content' df,
               In (name', content') (glob_csv d) ->
               read_csv content' = Ok df ->
               Py.get datasets name' = Some df).
Proof.
  unfold load_datasets. split; [|split].
  - intros ->. reflexivity.
  - intros d -> ->. reflexivity.
  - intros d name content e -> Hnd Hin He.
    assert (Hnd' : NoDup (map fst (glob_csv d)))
      by (apply NoDup_map_filter; exact Hnd).
    destruct (glob_csv d) as [| f files] eqn:Hglob; [contradiction|].
    set (out0 := ["Loading " ++ Py.str_int (Z.of_nat (List.length (f :: files)))
                  ++ " CSV files..."]).
    destruct (load_loop read_csv (f :: files) [] out0) as [datasets out] eqn:Hloop.
    exists datasets, out. split; [reflexivity|].
    assert (Hd : datasets = fst (load_loop read_csv (f :: files) [] out0))
      by (rewrite Hloop; reflexivity).
    assert (Ho : out = snd (load_loop read_csv (f :: files) [] out0))
      by (rewrite Hloop; reflexivity).
    split; [|split].
    + rewrite Ho. now apply load_loop_error_logged with (content := content).
    + rewrite Hd, (load_loop_get _ _ _ name content Hnd' Hin), He. reflexivity.
    + intros name' content' df Hin' Hok.
      rewrite Hd, (load_loop_get _ _ _ name' content' Hnd' Hin'), Hok. reflexivity.
Qed.

End LoaderFacts.


(** ** The schema checker *)

Section SchemaFacts.
Import Pd AnalyzeDatasets Spec.

(** The only dtype whose label contains "object". *)
Lemma contains_object (dt : dtype) :
  Py.contains "object" (dtype_str dt) = true -> dt = object.
Proof. destruct dt; simpl; intros H; try discriminate H; reflexivity. Qed.

Lemma has_column_in (df : DataFrame) (c : string) :
  has_column df c = true <-> In c (columns df).
Proof.
  unfold has_column, Py.mem. rewrite existsb_exists. split.
  - intros (c' & Hin & Heq). apply String.eqb_eq in Heq. now subst.
  - intros Hin. exists c. split; [exact Hin | apply String.eqb_refl].
Qed.

(** Behind its guard the dtype lookup finds the column: one schema entry
    never raises. *)
Lemma mismatch_entry_ok (df : DataFrame) (col expected : string) :
  mismatch_entry df col expected = Ok (mismatch_entries df col expected).
Proof.
  unfold mismatch_entries, mismatch_entry.
  destruct (has_column df col) eqn:Hc; [|reflexivity].
  apply has_column_in in Hc.
  destruct (dtype_of_columns df col Hc) as (dt & ->). cbn [bind].
  destruct (String.eqb expected "bool" && negb (Py.mem (dtype_str dt) ["bool"; "boolean"]));
    [reflexivity|].
  destruct (Py.mem expected ["int64"; "float64"] && Py.contains "object" (dtype_str dt));
    reflexivity.
Qed.

(** A column absent from the table yields no entry. *)
Lemma mismatch_entries_absent (df : DataFrame) (col expected : string) :
  ~ In col (columns df) -> mismatch_entries df col expected = [].
Proof.
  intros Hnot. unfold mismatch_entries, mismatch_entry.
  destruct (has_column df col) eqn:Hc; [|reflexivity].
  apply has_column_in in Hc. contradiction.
Qed.

(** The entry of a column declared int64 and observed as object. *)
Lemma mismatch_entries_numeric (df : DataFrame) (col : string) :
  dtype_of df col = Ok object ->
  mismatch_entries df col "int64" = [numeric_message col].
Proof.
  intros Hdt. unfold mismatch_entries, mismatch_entry.
  assert (Hc : has_column df col = true).
  { rewrite has_column_getitem. unfold getitem.
    unfold dtype_of, Py.getitem in Hdt.
    destruct (index_of col (columns df)) eqn:E; [reflexivity|].
    exfalso. pose proof (index_of_mem col (columns df)) as M. rewrite E in M.
    pose proof (has_key_get (header df) col) as K.
    unfold Py.has_key, Py.keys in K. unfold columns in M. rewrite M in K.
    destruct (Py.get (header df) col); discriminate. }
  rewrite Hc, Hdt. reflexivity.
Qed.

(** No other column yields the message of [col]. *)
Lemma mismatch_entries_other (df : DataFrame) (col c expected : string) :
  c <> col -> ~ In (numeric_message col) (mismatch_entries df c expected).
Proof.
  intros Hne. unfold mismatch_entries, mismatch_entry, numeric_message.
  destruct (has_column df c); [|intros []].
  destruct (dtype_of df c) as [dt | e]; [|intros []]. cbn [bind].
  destruct (String.eqb expected "bool" && negb (Py.mem (dtype_str dt) ["bool"; "boolean"])).
  - intros [H | []]. apply (f_equal backwards) in H.
    rewrite !backwards_app in H. destruct dt; simpl in H; discriminate H.
  - destruct (Py.mem expected ["int64"; "float64"] && Py.contains "object" (dtype_str dt))
      eqn:E; [|intros []].
    apply andb_prop in E. destruct E as [_ E]. apply contains_object in E. subst dt.
    intros [H | []]. apply Hne. simpl dtype_str in H.
    now apply append_inv_tail with (s := ": expected numeric, got object").
Qed.

(** The loop gathers the entries of the schema columns, in order, and
    never raises. *)
Lemma schema_loop_ok (df : DataFrame) (items : list (string * string))
  (mismatches : list string) :
  schema_loop df items mismatches
  = Ok (mismatches
        ++ flat_map (fun it => mismatch_entries df (fst it) (snd it)) items)%list.
Proof.
  revert mismatches. induction items as [| [c t] rest IH]; intros mismatches; simpl.
  - now rewrite app_nil_r.
  - rewrite mismatch_entry_ok. cbn [bind]. now rewrite IH, <- app_assoc.
Qed.

Lemma mismatches_with_ok (schemas : Py.dict (Py.dict string))
  (name : string) (df : DataFrame) :
  mismatches_with schemas name df
  = Ok (match Py.get schemas name with
        | Some schema =>
            flat_map (fun it => mismatch_entries df (fst it) (snd it)) schema
        | None => []
        end).
Proof.
  unfold mismatches_with, Py.getitem. rewrite has_key_get.
  destruct (Py.get schemas name) as [schema |]; [|reflexivity].
  cbn [bind]. now rewrite schema_loop_ok.
Qed.

Lemma count_occ_others (df : DataFrame) (col : string)
  (items : list (string * string)) :
  ~ In col (Py.keys items) ->
  count_occ string_dec
    (flat_map (fun it => mismatch_entries df (fst it) (snd it)) items)
    (numeric_message col) = 0%nat.
Proof.
  intros Hnot. apply count_occ_not_In. intros Hin.
  apply in_flat_map in Hin. destruct Hin as ([c t] & Hit & Hm).
  apply (mismatch_entries_other df col c t); [|exact Hm].
  intros ->. apply Hnot. unfold Py.keys. apply in_map_iff. now exists (col, t).
Qed.

Lemma get_in {V} (d : Py.dict V) (k : string) (v : V) :
  Py.get d k = Some v -> In (k, v) d.
Proof.
  induction d as [| [k0 v0] rest IH]; simpl; [discriminate|].
  destruct (String.eqb_spec k k0) as [-> | Hk].
  - intros [= ->]. now left.
  - intros H. right. now apply IH.
Qed.

Lemma NoDup_keys_split {V} (d : Py.dict V) (k : string) (v : V) :
  NoDup (Py.keys d) -> In (k, v) d ->
  exists before after,
    d = (before ++ (k, v) :: after)%list
    /\ ~ In k (Py.keys before) /\ ~ In k (Py.keys after).
Proof.
  intros Hnd Hin. apply in_split in Hin. destruct Hin as (before & after & ->).
  exists before, after. split; [reflexivity|].
  unfold Py.keys in *. rewrite map_app in Hnd. simpl in Hnd.
  apply NoDup_remove_2 in Hnd. rewrite in_app_iff in Hnd. tauto.
Qed.

(** The expected schemas name each column once. *)
Lemma SCHEMAS_keys_nodup (name : string) (schema : Py.dict string) :
  Py.get SCHEMAS name = Some schema -> NoDup (Py.keys schema).
Proof.
  intros H. apply get_in in H.
  assert (E : nodup string_dec (Py.keys schema) = Py.keys schema).
  { unfold SCHEMAS in H. simpl in H.
    repeat (destruct H as [H | H];
            [injection H as _ <-; vm_compute; reflexivity|]).
    contradiction. }
  rewrite <- E. apply NoDup_nodup.
Qed.

(** C9.  For a table with a column that its expected schema declares
    int64 and that is observed as object, the schema checker returns a
    list of mismatches that holds the entry "<column>: expected numeric,
    got object" exactly once: the list is the entries of the schema
    columns before it, that entry, and the entries of the schema columns
    after it.  Every entry of the list stems from a column that the schema
    names and the table has, so a column absent from the schema yields
    none. *)
Theorem C9_numeric_column_read_as_text
  (name : string) (schema : Py.dict string) (df : DataFrame) (col : string) :
  Py.get SCHEMAS name = Some schema ->
  Py.get schema col = Some "int64" ->
  dtype_of df col = Ok object ->
  exists mismatches,
    type_mismatch_list name df = Ok mismatches
    /\ count_occ string_dec mismatches
         (col ++ ": expected numeric, got " ++ dtype_str object) = 1%nat
    /\ (exists before after,
          schema = (before ++ (col, "int64") :: after)%list
          /\ ~ In col (Py.keys before) /\ ~ In col (Py.keys after)
          /\ mismatches
             = (flat_map (fun it => mismatch_entries df (fst it) (snd it)) before
                ++ [(col ++ ": expected numeric, got " ++ dtype_str object)%string]
                ++ flat_map (fun it => mismatch_entries df (fst it) (snd it)) after)%list)
    /\ (forall m, In m mismatches ->
          exists c expected,
            In (c, expected) schema /\ In c (columns df)
            /\ In m (mismatch_entries df c expected)).
Proof.
  intros Hs Hc Hdt.
  pose proof (SCHEMAS_keys_nodup name schema Hs) as Hnd.
  destruct (NoDup_keys_split schema col "int64" Hnd (get_in _ _ _ Hc))
    as (before & after & Hsplit & Hb & Ha).
  pose proof (mismatch_entries_numeric df col Hdt) as Hentry.
  change (col ++ ": expected numeric, got " ++ dtype_str object)
    with (numeric_message col).
  unfold type_mismatch_list. rewrite mismatches_with_ok, Hs.
  eexists. split; [reflexivity|].
  assert (Hlist : flat_map (fun it => mismatch_entries df (fst it) (snd it)) schema
                  = (flat_map (fun it => mismatch_entries df (fst it) (snd it)) before
                     ++ [numeric_message col]
                     ++ flat_map (fun it => mismatch_entries df (fst it) (snd it)) after)%list).
  { rewrite Hsplit, flat_map_app. simpl flat_map. now rewrite Hentry. }
  split; [|split].
  - rewrite Hlist. cbn [app].
    rewrite count_occ_app, count_occ_cons_eq by reflexivity.
    rewrite (count_occ_others df col before Hb), (count_occ_others df col after Ha).
    reflexivity.
  - exists before, after. repeat split; assumption.
  - intros m Hm. apply in_flat_map in Hm. destruct Hm as ([c t] & Hit & Hm).
    exists c, t. split; [exact Hit|]. split; [|exact Hm].
    destruct (in_dec string_dec c (columns df)) as [Hin | Hnot]; [exact Hin|].
    simpl in Hm. rewrite (mismatch_entries_absent df c t Hnot) in Hm. contradiction.
Qed.

(** A file without an expected schema has no mismatch. *)
Lemma no_schema_no_mismatch (name : string) (df : DataFrame) :
  Py.get SCHEMAS name = None -> type_mismatch_list name df = Ok [].
Proof.
  intros H. unfold type_mismatch_list. now rewrite mismatches_with_ok, H.
Qed.

End SchemaFacts.

Lemma C9_numeric_column_read_as_text_witness :
  Csv.read_csv Examples.keyword_sets_text_ids = Ok Examples.frame_text_ids
  /\ Py.get AnalyzeDatasets.SCHEMAS "db1_keyword_sets_file_sample.csv"
     = Some [("id", "int64"); ("competitive", "bool")]
  /\ Py.get [("id", "int64"); ("competitive", "bool")] "id" = Some "int64"
  /\ Pd.dtype_of Examples.frame_text_ids "id" = Ok Pd.object
  /\ exists mismatches,
       AnalyzeDatasets.type_mismatch_list "db1_keyword_sets_file_sample.csv"
         Examples.frame_text_ids = Ok mismatches
       /\ count_occ string_dec mismatches "id: expected numeric, got object" = 1%nat.
Proof.
  split; [vm_compute; reflexivity|]. split; [reflexivity|].
  split; [reflexivity|]. split; [reflexivity|].
  destruct (C9_numeric_column_read_as_text
              "db1_keyword_sets_file_sample.csv"
              [("id", "int64"); ("competitive", "bool")]
              Examples.frame_text_ids "id" eq_refl eq_refl eq_refl)
    as (mismatches & Hrun & Hcount & _).
  exists mismatches. split; [exact Hrun | exact Hcount].
Defined.

(** ** The overview report *)

Section OverviewFacts.
Import Pd AnalyzeDatasets Spec.

Variable read_csv : csv -> result DataFrame.

Lemma insert_sorted_in (f g : string * csv) (l : list (string * csv)) :
  In g (insert_sorted f l) <-> g = f \/ In g l.
Proof.
  induction l as [| h rest IH]; simpl.
  - intuition congruence.
  - destruct (String.leb (fst f) (fst h)); simpl; rewrite ?IH; intuition congruence.
Qed.

Lemma sorted_in (g : string * csv) (l : list (string * csv)) :
  In g (sorted l) <-> In g l.
Proof.
  unfold sorted. induction l as [| f rest IH]; simpl; [tauto|].
  rewrite insert_sorted_in, IH. intuition congruence.
Qed.

Lemma unique_if_present_ok (df : DataFrame) (col : string) :
  exists u, unique_if_present df col = Ok u.
Proof.
  unfold unique_if_present. destruct (has_column df col) eqn:Hc.
  - apply has_column_in in Hc. destruct (getitem_columns df col Hc) as (cells & ->).
    eexists; reflexivity.
  - eexists; reflexivity.
Qed.

(** The statistics of a parsed file are always computed: nothing past
    [read_csv] raises. *)
Lemma file_stats_ok (name : string) (df : DataFrame) :
  exists st, file_stats name df = Ok st /\ file st = name /\ n_rows st = len df.
Proof.
  unfold file_stats, type_mismatch_list. rewrite mismatches_with_ok. cbn [bind].
  destruct (unique_if_present_ok df "company_id") as (u1 & ->).
  destruct (unique_if_present_ok df "employment_id") as (u2 & ->).
  destruct (unique_if_present_ok df "keyword") as (u3 & ->).
  cbn [bind]. eexists. split; [reflexivity|]. split; reflexivity.
Qed.

(** A file that does not parse, anywhere in the list, makes the loop
    raise: the statistics gathered so far are not returned. *)
Lemma analyze_loop_raises (csv_files : list (string * csv))
  (results : list stats) (out : list string)
  (name : string) (content : csv) (e : exn) :
  In (name, content) csv_files -> read_csv content = Raise e ->
  exists e' out', analyze_loop read_csv csv_files results out = (Raise e', out').
Proof.
  revert results out. induction csv_files as [| [n c] rest IH];
    intros results out Hin He; [contradiction|].
  simpl. destruct (read_csv c) as [df | e0] eqn:Hc; cbn [bind].
  - destruct (file_stats_ok n df) as (st & -> & _).
    destruct Hin as [Heq | Hin].
    + injection Heq as -> ->. congruence.
    + now apply IH.
  - do 2 eexists; reflexivity.
Qed.

(** When every file parses, the loop returns the statistics of each. *)
Lemma analyze_loop_returns (csv_files : list (string * csv))
  (results : list stats) (out : list string) :
  Forall (fun f => exists df, read_csv (snd f) = Ok df) csv_files ->
  exists sts out',
    analyze_loop read_csv csv_files results out = (Ok (results ++ sts)%list, out')
    /\ map file sts = map fst csv_files.
Proof.
  revert results out. induction csv_files as [| [n c] rest IH];
    intros results out Hall.
  - exists [], out. split; [simpl; now rewrite app_nil_r | reflexivity].
  - inversion Hall as [| ? ? [df Hdf] Hrest]; subst. simpl in Hdf.
    cbn [analyze_loop]. rewrite Hdf. cbn [bind].
    destruct (file_stats_ok n df) as (st & -> & Hfile & _).
    destruct (IH (results ++ [st])%list
                 (List.app out ["Analyzing " ++ n ++ "..."]) Hrest)
      as (sts & out' & Hrun & Hnames).
    exists (st :: sts), out'. split.
    + rewrite Hrun, <- app_assoc. reflexivity.
    + simpl. now rewrite Hfile, Hnames.
Qed.

(** C10.  In the overview report, a directory in which a CSV file fails
    to parse makes the whole analysis raise: [read_csv] is called outside
    any handler, so no statistics are returned for any file. *)
Theorem C10_overview_aborts_on_bad_file
  (fs : filesystem) (directory_ : string) (d : directory)
  (name : string) (content : csv) (e : exn) :
  Py.get fs directory_ = Some d ->
  In (name, content) (glob_csv d) ->
  read_csv content = Raise e ->
  exists e' out,
    analyze_csv_files read_csv fs directory_ = (Raise e', out).
Proof.
  intros Hd Hin He. unfold analyze_csv_files. rewrite Hd.
  apply analyze_loop_raises with (name := name) (content := content) (e := e).
  - apply sorted_in. exact Hin.
  - exact He.
Qed.

(** And it is only a file that fails to parse that makes it raise. *)
Lemma overview_returns_when_all_parse
  (fs : filesystem) (directory_ : string) (d : directory) :
  Py.get fs directory_ = Some d ->
  Forall (fun f => exists df, read_csv (snd f) = Ok df) (glob_csv d) ->
  exists sts out,
    analyze_csv_files read_csv fs directory_ = (Ok sts, out)
    /\ map file sts = map fst (sorted (glob_csv d)).
Proof.
  intros Hd Hall. unfold analyze_csv_files. rewrite Hd.
  destruct (analyze_loop_returns (sorted (glob_csv d)) [] []) as (sts & out & Hrun & Hn).
  - apply Forall_forall. intros f Hf. apply (proj1 (sorted_in _ _)) in Hf.
    rewrite Forall_forall in Hall. exact (Hall f Hf).
  - exists sts, out. split; [exact Hrun | exact Hn].
Qed.

End OverviewFacts.

Lemma C10_overview_aborts_on_bad_file_witness :
  Py.get Examples.fs "private/datasets" = Some Examples.datasets_dir
  /\ In ("broken.csv", Examples.empty_file) (glob_csv Examples.datasets_dir)
  /\ Csv.read_csv Examples.empty_file
     = Raise (EmptyDataError "No columns to parse from file")
  /\ exists e' out,
       AnalyzeDatasets.analyze_csv_files Csv.read_csv Examples.fs "private/datasets"
       = (Raise e', out).
Proof.
  split; [reflexivity|]. split; [vm_compute; tauto|]. split; [reflexivity|].
  apply (C10_overview_aborts_on_bad_file Csv.read_csv Examples.fs
           "private/datasets" Examples.datasets_dir "broken.csv"
           Examples.empty_file (EmptyDataError "No columns to parse from file")).
  - reflexivity.
  - vm_compute; tauto.
  - reflexivity.
Defined.

(** On that directory the loader of the relationship analyzer goes on
    where the overview stops. *)
Lemma overview_stops_where_loader_goes_on :
  fst (AnalyzeDatasets.analyze_csv_files Csv.read_csv Examples.fs "private/datasets")
  = Raise (EmptyDataError "No columns to parse from file")
  /\ fst (RelationshipAnalyzer.load_datasets Csv.read_csv Examples.fs
            "private/datasets")
     = Ok Examples.datasets.
Proof. split; vm_compute; reflexivity. Qed.

Lemma C7_loader_failures_witness :
  RelationshipAnalyzer.load_datasets Csv.read_csv Examples.fs "private/nowhere"
  = (Raise (FileNotFoundError "Directory private/nowhere not found"), [])
  /\ RelationshipAnalyzer.load_datasets Csv.read_csv Examples.fs "private/empty"
     = (Raise (FileNotFoundError "No CSV files found in private/empty"), [])
  /\ exists datasets out,
       RelationshipAnalyzer.load_datasets Csv.read_csv Examples.fs
         "private/datasets" = (Ok datasets, out)
       /\ In "  ERROR loading broken.csv: No columns to parse from file" out
       /\ Py.get datasets "broken.csv" = None
       /\ forall name' content' df,
            In (name', content') (glob_csv Examples.datasets_dir) ->
            Csv.read_csv content' = Ok df ->
            Py.get datasets name' = Some df.
Proof.
  split; [|split].
  - apply (proj1 (C7_loader_failures Csv.read_csv Examples.fs "private/nowhere")).
    reflexivity.
  - apply (proj1 (proj2 (C7_loader_failures Csv.read_csv Examples.fs "private/empty"))
             [("notes.txt", [])]); reflexivity.
  - apply (proj2 (proj2 (C7_loader_failures Csv.read_csv Examples.fs "private/datasets"))
             Examples.datasets_dir "broken.csv" Examples.empty_file
             (EmptyDataError "No columns to parse from file")).
    + reflexivity.
    + repeat constructor; cbv; intuition discriminate.
    + vm_compute; tauto.
    + reflexivity.
Defined.


(** ** The sampler *)

Section SamplerFacts.
Import Pd Sampler.

Variable read_csv_str : csv -> result DataFrame.

(** Two tables with different names are written under different names. *)
Lemma sample_name_inj (n n' : string) (df df' : DataFrame) :
  fst (sample_of n df) = fst (sample_of n' df') -> n = n'.
Proof.
  unfold sample_of.
  destruct (len df <=? 500), (len df' <=? 500); simpl; intros H;
    try discriminate H; now injection H.
Qed.




End SamplerFacts.

Section SamplerClaim.
Import Pd Csv Sampler Spec.

Lemma transpose_columns {A} (h : A -> list string -> cell)
  (rs : list (list string)) (idx : list A) :
  transpose (List.length rs) (map (fun i => map (h i) rs) idx)
  = map (fun r => map (fun i => h i r) idx) rs.
Proof.
  induction rs as [| r rs IH]; simpl.
  - reflexivity.
  - f_equal.
    + rewrite map_map. reflexivity.
    + rewrite map_map. simpl. exact IH.
Qed.

Lemma map_fst_combine {A B} (l : list A) (l' : list B) :
  List.length l = List.length l' -> map fst (combine l l') = l.
Proof.
  revert l'. induction l as [| a l IH]; intros [| b l'] H; simpl in *;
    try discriminate; [reflexivity|]. f_equal. apply IH. congruence.
Qed.


Lemma nth_map_seq {A} (g : nat -> A) (w i : nat) (d : A) :
  (i < w)%nat -> nth i (map g (seq 0 w)) d = g i.
Proof.
  intros Hi. rewrite (nth_indep _ d (g 0%nat))
    by (rewrite length_map, length_seq; exact Hi).
  rewrite map_nth, seq_nth by exact Hi. reflexivity.
Qed.

(** The frame read with [dtype=str]: the header names, every column an
    object column, and row by row the fields as text. *)
Lemma read_csv_str_frame (names : list string) (records : list (list string))
  (df : DataFrame) :
  read_csv_str (names :: records) = Ok df ->
  columns df = names
  /\ Forall (fun c => snd c = object) (header df)
  /\ rows df
     = map (fun r => map (fun i => let f := nth i r "" in
                                   if is_na f then None else Some (SStr f))
                         (seq 0 (List.length names)))
           records.
Proof.
  unfold read_csv_str.
  destruct (first_long _ _ _) as [[line saw] |]; [discriminate|].
  intros [= <-]. unfold frame_of, columns. cbn [header rows].
  split; [|split].
  - apply map_fst_combine. now rewrite !length_map, length_seq.
  - apply Forall_forall. intros [c dt] Hin. apply in_combine_r in Hin.
    rewrite map_map in Hin. apply in_map_iff in Hin.
    destruct Hin as (i & <- & _). reflexivity.
  - rewrite map_map. unfold text_column, field_column. cbn [snd].
    rewrite <- (transpose_columns
                  (fun i r => let f := nth i r "" in
                              if is_na f then None else Some (SStr f))).
    f_equal. apply map_ext. intros i. now rewrite map_map.
Qed.

(** What [to_csv] writes for a frame read with [dtype=str]. *)
Lemma to_csv_rows (names : list string) (records : list (list string))
  (df : DataFrame) :
  read_csv_str (names :: records) = Ok df ->
  to_csv df = names :: map (written_record (List.length names)) records
  /\ forall n,
       to_csv (head n df)
       = names :: map (written_record (List.length names)) (firstn n records).
Proof.
  intros Hread. destruct (read_csv_str_frame names records df Hread)
    as (Hcols & _ & Hrows).
  assert (Hw : List.length (header df) = List.length names).
  { rewrite <- Hcols. unfold columns. now rewrite length_map. }
  assert (Hrow : forall r,
             map (fun i => match nth i
                                   (map (fun i => let f := nth i r "" in
                                                  if is_na f then None else Some (SStr f))
                                        (seq 0 (List.length names))) None with
                           | Some v => str v
                           | None => ""
                           end)
                 (seq 0 (List.length names))
             = written_record (List.length names) r).
  { intros r. unfold written_record. apply map_ext_in. intros i Hi.
    apply in_seq in Hi. rewrite nth_map_seq by lia. simpl.
    destruct (is_na (nth i r "")); reflexivity. }
  assert (Hall : forall rs,
             map (fun r0 => map (fun i => match nth i r0 None with
                                          | Some v => str v
                                          | None => ""
                                          end)
                                (seq 0 (List.length (header df))))
                 (map (fun r => map (fun i => let f := nth i r "" in
                                              if is_na f then None else Some (SStr f))
                                    (seq 0 (List.length names))) rs)
             = map (written_record (List.length names)) rs).
  { intros rs. rewrite map_map, Hw. apply map_ext. exact Hrow. }
  split.
  - unfold to_csv. rewrite Hcols, Hrows. f_equal. apply Hall.
  - intros n. unfold to_csv, head, columns. cbn [header rows].
    fold (columns df). rewrite Hcols, Hrows. f_equal.
    rewrite firstn_map. apply Hall.
Qed.





End SamplerClaim.



(** * Further properties of the scripts *)

(** ** analyze_foreign_keys: which relationships are reported *)

Section ReportedRelationships.
Import Pd RelationshipAnalyzer Spec.

Lemma relationship_eq_dec (a b : relationship) : {a = b} + {a <> b}.
Proof. repeat (apply string_dec || decide equality). Defined.

Lemma relationships_nodup : NoDup relationships.
Proof.
  assert (E : nodup relationship_eq_dec relationships = relationships)
    by (vm_compute; reflexivity).
  rewrite <- E. apply NoDup_nodup.
Qed.

(** A pass appends the entry of its relationship, or nothing. *)
Lemma fk_step_shape (datasets : Py.dict DataFrame) (r : relationship) :
  fk_step datasets r = Ok []
  \/ exists e, fk_step datasets r = Ok [e] /\ key_of e = r.
Proof.
  rewrite fk_step_cases.
  destruct (Py.get datasets (fst (fst (fst r)))) as [pdf |]; [|now left].
  destruct (Py.get datasets (snd (fst r))) as [cdf |]; [|now left].
  destruct (getitem pdf (snd (fst (fst r)))) as [pc | e1]; [|now left].
  destruct (getitem cdf (snd r)) as [cc | e2]; [|now left].
  destruct (fk_metrics_ok r pc cc) as (e & He & Hk & _).
  right. exists e. rewrite He. split; [reflexivity | exact Hk].
Qed.

Lemma fk_entries_keys (datasets : Py.dict DataFrame) (r : relationship) :
  map key_of (fk_entries datasets r) = if evaluable datasets r then [r] else [].
Proof.
  unfold evaluable, fk_entries.
  destruct (fk_step_shape datasets r) as [H | (e & H & Hk)].
  - rewrite H. rewrite (proj2 (unevaluable_step datasets r) H). reflexivity.
  - rewrite H. destruct (unevaluable datasets r) eqn:U.
    + apply unevaluable_step in U. congruence.
    + simpl. now rewrite Hk.
Qed.

Lemma flat_map_keys (datasets : Py.dict DataFrame) (rels : list relationship) :
  map key_of (flat_map (fk_entries datasets) rels)
  = filter (evaluable datasets) rels.
Proof.
  induction rels as [| r rest IH]; simpl; [reflexivity|].
  rewrite map_app, fk_entries_keys, IH.
  now destruct (evaluable datasets r).
Qed.

(** X1.  The entries [analyze_foreign_keys] returns are those of the
    declared relationships whose two tables are loaded and whose two key
    columns exist, each once and in the order of the declaration; there
    are at most 14. *)
Theorem X1_reported_relationships_in_declared_order
  (datasets : Py.dict DataFrame) :
  exists results,
    analyze_foreign_keys datasets = Ok results
    /\ map key_of results = filter (evaluable datasets) relationships
    /\ NoDup (map key_of results)
    /\ (List.length results <= 14)%nat.
Proof.
  exists (flat_map (fk_entries datasets) relationships).
  split; [apply analyze_foreign_keys_ok|].
  pose proof (flat_map_keys datasets relationships) as K.
  split; [exact K|]. split.
  - rewrite K. apply NoDup_filter. exact relationships_nodup.
  - rewrite <- (length_map key_of), K.
    eapply Nat.le_trans; [apply filter_length_le|]. apply Nat.le_refl.
Qed.

End ReportedRelationships.

(** ** analyze_foreign_keys: what the counts depend on *)

Section KeyCounts.
Import Pd RelationshipAnalyzer Spec.

Lemma round_half_even_comp (p q : Q) :
  (p == q)%Q -> Py.round_half_even p = Py.round_half_even q.
Proof.
  intros H. unfold Py.round_half_even.
  rewrite (Qfloor_comp p q H).
  assert (E : ((p - inject_Z (Qfloor q)) ?= 1 # 2)%Q
              = ((q - inject_Z (Qfloor q)) ?= 1 # 2)%Q).
  { apply Qcompare_comp; [|reflexivity]. now rewrite H. }
  now rewrite E.
Qed.

Lemma round2_comp (p q : Q) : (p == q)%Q -> Py.round2 p = Py.round2 q.
Proof.
  intros H. unfold Py.round2. apply Qred_complete.
  rewrite (round_half_even_comp (p * 100) (q * 100)); [reflexivity|].
  now rewrite H.
Qed.

(** With every reference valid the percentage is 100. *)
Lemma integrity_full (total : Z) :
  0 < total -> Py.round2 (integrity_of total total) = 100%Q.
Proof.
  intros Hpos. unfold integrity_of.
  assert (G : (total >? 0) = true) by (apply Z.gtb_lt; lia). rewrite G.
  change 100%Q with (Py.round2 100). apply round2_comp.
  assert (N : ~ (inject_Z total == 0)%Q) by (unfold Qeq; simpl; lia).
  unfold Qdiv. rewrite Qmult_inv_r by exact N. reflexivity.
Qed.

Lemma mem_set (v : string) (l : list string) :
  Py.mem v (Py.set l) = true <-> In v l.
Proof.
  unfold Py.mem, Py.set. rewrite existsb_exists. split.
  - intros (w & Hw & Heq). apply String.eqb_eq in Heq. subst w.
    now apply nodup_In in Hw.
  - intros Hin. exists v. split; [now apply nodup_In | apply String.eqb_refl].
Qed.

Lemma filter_all {A} (f : A -> bool) (l : list A) :
  (forall x, In x l -> f x = true) -> filter f l = l.
Proof.
  induction l as [| x l IH]; intros H; simpl; [reflexivity|].
  rewrite (H x (or_introl eq_refl)). f_equal. apply IH.
  intros y Hy. apply H. now right.
Qed.

Lemma count_notna_texts (cells : list cell) :
  count_notna cells = Z.of_nat (List.length (key_texts cells)).
Proof.
  unfold count_notna, key_texts, astype_str.
  now rewrite length_map, dropna_length.
Qed.

(** X3.  When every non-null child key, as text, is among the parent
    keys, every reference is counted valid, none invalid, and with at
    least one reference the integrity is 100.  This is the case of a
    column checked against itself. *)
Theorem X3_contained_keys_give_full_integrity
  (r : relationship) (parent_col child_col : list cell) (e : fk_result) :
  fk_metrics r parent_col child_col = Ok e ->
  (forall s, In s (key_texts child_col) -> In s (key_texts parent_col)) ->
  valid_refs e = child_total_refs e
  /\ invalid_refs e = 0
  /\ (0 < child_total_refs e -> referential_integrity_pct e = 100%Q).
Proof.
  intros He Hsub.
  destruct (fk_metrics_ok r parent_col child_col)
    as (e' & He' & _ & Htot & _ & Hinv & Hpct & _ & _ & Hvalid).
  assert (e' = e) by congruence. subst e'.
  assert (Hv : valid_refs e = child_total_refs e).
  { rewrite Hvalid, Htot, count_notna_texts. fold (key_texts child_col).
    fold (key_texts parent_col). rewrite filter_all; [reflexivity|].
    intros v Hv. apply mem_set. now apply Hsub. }
  split; [exact Hv|]. split; [lia|].
  intros Hpos. rewrite Hpct, Hv. now apply integrity_full.
Qed.

Lemma X3_contained_keys_give_full_integrity_witness :
  exists e,
    fk_metrics Examples.hierarchy Examples.keys_with_repeat
      Examples.keys_with_repeat = Ok e
    /\ (forall s, In s (key_texts Examples.keys_with_repeat) ->
                  In s (key_texts Examples.keys_with_repeat))
    /\ valid_refs e = child_total_refs e
    /\ invalid_refs e = 0
    /\ (0 < child_total_refs e -> referential_integrity_pct e = 100%Q).
Proof.
  eexists. split; [vm_compute; reflexivity|]. split; [intros s H; exact H|].
  apply (X3_contained_keys_give_full_integrity Examples.hierarchy
           Examples.keys_with_repeat Examples.keys_with_repeat).
  - vm_compute; reflexivity.
  - intros s H; exact H.
Defined.

Lemma nodup_same_length (l l' : list string) :
  (forall s, In s l <-> In s l') ->
  List.length (nodup string_dec l) = List.length (nodup string_dec l').
Proof.
  intros H. apply Nat.le_antisymm; apply NoDup_incl_length;
    try apply NoDup_nodup; intros s Hs; apply nodup_In; apply nodup_In in Hs;
    now apply H.
Qed.

(** X4.  The entry of a relationship depends on the parent column only
    through the set of its key texts: repeating parent keys, reordering
    the parent rows or adding rows without a key changes no field. *)
Theorem X4_parent_keys_count_as_a_set
  (r : relationship) (parent_col parent_col' child_col : list cell)
  (e e' : fk_result) :
  fk_metrics r parent_col child_col = Ok e ->
  fk_metrics r parent_col' child_col = Ok e' ->
  (forall s, In s (key_texts parent_col) <-> In s (key_texts parent_col')) ->
  e = e'.
Proof.
  intros He He' Hset.
  destruct (fk_metrics_ok r parent_col child_col)
    as (e0 & H0 & Hk & Htot & _ & Hinv & Hpct & Hty & Huniq & Hvalid).
  assert (e0 = e) by congruence. subst e0.
  destruct (fk_metrics_ok r parent_col' child_col)
    as (e0 & H0' & Hk' & Htot' & _ & Hinv' & Hpct' & Hty' & Huniq' & Hvalid').
  assert (e0 = e') by congruence. subst e0.
  assert (Hu : parent_unique_values e = parent_unique_values e').
  { rewrite Huniq, Huniq'. f_equal. apply nodup_same_length. exact Hset. }
  assert (Hv : valid_refs e = valid_refs e').
  { rewrite Hvalid, Hvalid'. do 2 f_equal. apply filter_ext. intros v.
    destruct (Py.mem v (Py.set (astype_str (dropna parent_col)))) eqn:M.
    - symmetry. apply mem_set. apply Hset. now apply mem_set.
    - destruct (Py.mem v (Py.set (astype_str (dropna parent_col')))) eqn:M';
        [|reflexivity].
      apply mem_set in M'. apply Hset in M'. apply mem_set in M'.
      unfold key_texts in M'. congruence. }
  assert (Ht : child_total_refs e = child_total_refs e') by congruence.
  assert (Hi : invalid_refs e = invalid_refs e') by congruence.
  assert (Hp : referential_integrity_pct e = referential_integrity_pct e')
    by (rewrite Hpct, Hpct', Hv, Ht; reflexivity).
  unfold key_of in Hk, Hk'. rewrite <- Hk' in Hk.
  injection Hk as K1 K2 K3 K4.
  assert (Hrt : relationship_type e = relationship_type e')
    by (rewrite Hty, Hty', K1, K3; reflexivity).
  destruct e, e'. simpl in *. congruence.
Qed.

Lemma X4_parent_keys_count_as_a_set_witness :
  exists e,
    fk_metrics Examples.hierarchy Examples.keys_with_repeat
      Examples.keys_with_repeat = Ok e
    /\ fk_metrics Examples.hierarchy Examples.keys_distinct
         Examples.keys_with_repeat = Ok e.
Proof.
  assert (H1 : exists e, fk_metrics Examples.hierarchy Examples.keys_with_repeat
                           Examples.keys_with_repeat = Ok e)
    by (eexists; vm_compute; reflexivity).
  assert (H2 : exists e, fk_metrics Examples.hierarchy Examples.keys_distinct
                           Examples.keys_with_repeat = Ok e)
    by (eexists; vm_compute; reflexivity).
  destruct H1 as (e & He). destruct H2 as (e' & He').
  exists e. split; [exact He|].
  rewrite (X4_parent_keys_count_as_a_set Examples.hierarchy
             Examples.keys_with_repeat Examples.keys_distinct
             Examples.keys_with_repeat e e' He He'); [exact He'|].
  intros s. vm_compute. tauto.
Defined.

End KeyCounts.

(** ** analyze_foreign_keys on tables read from files *)

Section LoadedKeys.
Import Pd Csv RelationshipAnalyzer Spec.



Lemma nodup_length_le (l : list string) :
  (List.length (nodup string_dec l) <= List.length l)%nat.
Proof.
  apply NoDup_incl_length; [apply NoDup_nodup|].
  intros s Hs. now apply nodup_In in Hs.
Qed.

(** X5.  The counts of an entry stay within the sizes of its tables: the
    number of distinct parent keys is at most the number of rows of the
    parent table, and the number of child references is at most the
    number of rows of the child table. *)
Theorem X5_counts_within_table_sizes
  (datasets : Py.dict DataFrame) (results : list fk_result) (e : fk_result) :
  analyze_foreign_keys datasets = Ok results ->
  In e results ->
  exists parent_df child_df,
    Py.get datasets (parent_table e) = Some parent_df
    /\ Py.get datasets (child_table e) = Some child_df
    /\ 0 <= parent_unique_values e <= len parent_df
    /\ 0 <= child_total_refs e <= len child_df.
Proof.
  intros Hrun Hin.
  destruct (analyze_foreign_keys_entry _ _ _ Hrun Hin)
    as (r & pdf & cdf & pc & cc & _ & Hp & Hc & Hpc & Hcc & Hm).
  destruct (fk_metrics_ok r pc cc)
    as (e' & He' & Hk & Htot & _ & _ & _ & _ & Huniq & _).
  assert (e' = e) by congruence. subst e'.
  unfold key_of in Hk. destruct r as [[[pt pk] ct] ck].
  injection Hk as K1 K2 K3 K4. cbn [fst snd] in *. subst.
  exists pdf, cdf. split; [exact Hp|]. split; [exact Hc|].
  apply getitem_length in Hpc, Hcc. split.
  - rewrite Huniq, <- Hpc. split; [lia|]. apply inj_le.
    eapply Nat.le_trans; [apply nodup_length_le|].
    unfold astype_str. rewrite length_map, dropna_length.
    apply filter_length_le.
  - rewrite Htot, <- Hcc. unfold count_notna. split; [lia|].
    apply inj_le. apply filter_length_le.
Qed.

Lemma X5_counts_within_table_sizes_witness :
  analyze_foreign_keys Examples.datasets = Ok Examples.results
  /\ In Examples.entry_keywords Examples.results
  /\ exists parent_df child_df,
       Py.get Examples.datasets (parent_table Examples.entry_keywords)
       = Some parent_df
       /\ Py.get Examples.datasets (child_table Examples.entry_keywords)
          = Some child_df
       /\ 0 <= parent_unique_values Examples.entry_keywords <= len parent_df
       /\ 0 <= child_total_refs Examples.entry_keywords <= len child_df.
Proof.
  split; [vm_compute; reflexivity|]. split; [left; reflexivity|].
  apply (X5_counts_within_table_sizes Examples.datasets Examples.results).
  - vm_compute; reflexivity.
  - left; reflexivity.
Defined.

End LoadedKeys.

(** ** load_datasets: what is loaded *)

Section LoadedTables.
Import Pd RelationshipAnalyzer Spec.

Variable read_csv : csv -> result DataFrame.

Lemma keys_setitem_new {V} (d : Py.dict V) (k : string) (v : V) :
  ~ In k (Py.keys d) -> Py.keys (Py.setitem d k v) = (Py.keys d ++ [k])%list.
Proof.
  unfold Py.keys. induction d as [| [k0 v0] rest IH]; simpl; intros Hnot.
  - reflexivity.
  - destruct (String.eqb_spec k k0) as [-> | Hne]; [tauto|].
    simpl. f_equal. apply IH. tauto.
Qed.

Lemma load_loop_keys (files : list (string * csv))
  (datasets : Py.dict DataFrame) (out : list string) :
  NoDup (map fst files) ->
  (forall f, In f files -> ~ In (fst f) (Py.keys datasets)) ->
  Py.keys (fst (load_loop read_csv files datasets out))
  = (Py.keys datasets ++ map fst (filter (parses read_csv) files))%list.
Proof.
  revert datasets out. induction files as [| [n c] rest IH];
    intros datasets out Hnd Hfresh.
  - simpl. now rewrite app_nil_r.
  - simpl in Hnd. inversion Hnd as [| ? ? Hnotin Hnd']; subst.
    simpl. unfold parses at 1. cbn [snd].
    destruct (read_csv c) as [df | e].
    + rewrite IH.
      * rewrite keys_setitem_new by (apply (Hfresh (n, c)); now left).
        cbn [map fst]. now rewrite <- app_assoc.
      * exact Hnd'.
      * intros f Hf Hin.
        rewrite keys_setitem_new in Hin by (apply (Hfresh (n, c)); now left).
        apply in_app_or in Hin. destruct Hin as [Hin | [Heq | []]].
        -- apply (Hfresh f); [now right | exact Hin].
        -- apply Hnotin. rewrite Heq. now apply in_map.
    + apply IH; [exact Hnd'|]. intros f Hf. apply Hfresh. now right.
Qed.

Lemma load_loop_out_length (files : list (string * csv))
  (datasets : Py.dict DataFrame) (out : list string) :
  List.length (snd (load_loop read_csv files datasets out))
  = (List.length out + List.length files)%nat.
Proof.
  revert datasets out. induction files as [| [n c] rest IH]; intros datasets out.
  - simpl. lia.
  - simpl. destruct (read_csv c); rewrite IH, length_app; simpl; lia.
Qed.

(** X6.  From a directory that holds CSV files the loader returns the
    tables of exactly the CSV files that parse, under their file names and
    in the order of the listing; files that are not CSV files are never
    loaded.  It prints one line per CSV file after the opening line. *)
Theorem X6_loaded_tables_are_the_parsed_csv_files
  (fs : filesystem) (data_dir : string) (d : directory) :
  Py.get fs data_dir = Some d ->
  NoDup (map fst d) ->
  glob_csv d <> [] ->
  exists datasets out,
    load_datasets read_csv fs data_dir = (Ok datasets, out)
    /\ Py.keys datasets = map fst (filter (parses read_csv) (glob_csv d))
    /\ (forall name, In name (Py.keys datasets) ->
                     Py.endswith name ".csv" = true)
    /\ List.length out = S (List.length (glob_csv d)).
Proof.
  intros Hd Hnd Hne. unfold load_datasets. rewrite Hd.
  assert (Hnd' : NoDup (map fst (glob_csv d)))
    by (apply NoDup_map_filter; exact Hnd).
  destruct (glob_csv d) as [| f files] eqn:Hglob; [congruence|].
  set (out0 := ["Loading " ++ Py.str_int (Z.of_nat (List.length (f :: files)))
                ++ " CSV files..."]).
  pose proof (load_loop_keys (f :: files) [] out0 Hnd' (fun _ _ H => H)) as Hkeys.
  pose proof (load_loop_out_length (f :: files) [] out0) as Hlen.
  destruct (load_loop read_csv (f :: files) [] out0) as [datasets out].
  cbn [fst snd] in Hkeys, Hlen. exists datasets, out.
  split; [reflexivity|]. split; [exact Hkeys|]. split; [|exact Hlen].
  intros name Hin. rewrite Hkeys in Hin. apply in_map_iff in Hin.
  destruct Hin as (g & <- & Hg). apply filter_In in Hg. destruct Hg as [Hg _].
  rewrite <- Hglob in Hg. unfold glob_csv in Hg. apply filter_In in Hg. tauto.
Qed.

End LoadedTables.

Lemma X6_loaded_tables_are_the_parsed_csv_files_witness :
  Py.get Examples.fs "private/datasets" = Some Examples.datasets_dir
  /\ NoDup (map fst Examples.datasets_dir)
  /\ glob_csv Examples.datasets_dir <> []
  /\ exists datasets out,
       RelationshipAnalyzer.load_datasets Csv.read_csv Examples.fs
         "private/datasets" = (Ok datasets, out)
       /\ Py.keys datasets
          = map fst (filter (Spec.parses Csv.read_csv)
                            (glob_csv Examples.datasets_dir))
       /\ (forall name, In name (Py.keys datasets) ->
                        Py.endswith name ".csv" = true)
       /\ List.length out = S (List.length (glob_csv Examples.datasets_dir)).
Proof.
  assert (Hnd : NoDup (map fst Examples.datasets_dir))
    by (repeat constructor; cbv; intuition discriminate).
  assert (Hne : glob_csv Examples.datasets_dir <> [])
    by (vm_compute; discriminate).
  split; [reflexivity|]. split; [exact Hnd|]. split; [exact Hne|].
  exact (X6_loaded_tables_are_the_parsed_csv_files Csv.read_csv Examples.fs
           "private/datasets" Examples.datasets_dir eq_refl Hnd Hne).
Defined.

(** ** analyze_data_coverage: the records and their numbers *)

Section CoverageRecords.
Import Pd RelationshipAnalyzer Spec.

Lemma Forall2_map_l {A B C} (g : A -> B) (R : B -> C -> Prop)
  (l : list A) (l' : list C) :
  Forall2 (fun a c => R (g a) c) l l' -> Forall2 R (map g l) l'.
Proof. induction 1; simpl; now constructor. Qed.

Lemma Forall2_in_r {A B} (R : A -> B -> Prop) (l : list A) (l' : list B) (b : B) :
  Forall2 R l l' -> In b l' -> exists a, In a l /\ R a b.
Proof.
  induction 1 as [| x y l l' Hxy Hall IH]; intros Hin; [contradiction|].
  destruct Hin as [-> | Hin].
  - exists x. split; [now left | exact Hxy].
  - destruct (IH Hin) as (a & Ha & Hr). exists a. split; [now right | exact Hr].
Qed.

(** The loops gather one record per column, table by table. *)
Lemma coverage_tables_sites (items : list (string * DataFrame))
  (coverage : list coverage_record) :
  exists recs,
    coverage_tables items coverage = Ok (coverage ++ recs)%list
    /\ Forall2 (fun site rec =>
                  coverage_of (fst (fst site)) (snd (fst site)) (snd site) = Ok rec)
               (column_sites items) recs.
Proof.
  revert coverage. induction items as [| [filename df] rest IH]; intros coverage.
  - exists []. split; [simpl; now rewrite app_nil_r | constructor].
  - destruct (coverage_columns_ok filename df (columns df) coverage (fun c H => H))
      as (recs1 & Hrun1 & Hall1).
    destruct (IH (coverage ++ recs1)%list) as (recs2 & Hrun2 & Hall2).
    exists (recs1 ++ recs2)%list. split.
    + simpl. rewrite Hrun1. cbn [bind]. rewrite Hrun2, <- app_assoc. reflexivity.
    + unfold column_sites. simpl. apply Forall2_app; [|exact Hall2].
      now apply Forall2_map_l.
Qed.

(** The fields of a record, read off the column it was computed from. *)
Lemma coverage_of_fields (filename : string) (df : DataFrame) (col : string)
  (rec : coverage_record) :
  coverage_of filename df col = Ok rec ->
  exists cells,
    getitem df col = Ok cells
    /\ table rec = filename /\ column rec = col
    /\ total_rows rec = len df
    /\ null_count rec = isnull_sum cells
    /\ unique_values rec = nunique cells
    /\ null_percentage rec
       = Np.round2 (Np.scale (Np.true_divide (isnull_sum cells) (len df)) 100).
Proof.
  unfold coverage_of. destruct (getitem df col) as [cells | e]; [|discriminate].
  cbn [bind]. destruct (dtype_of df col) as [dt | e]; [|discriminate].
  cbn [bind]. intros [= <-]. exists cells. repeat split.
Qed.

Lemma column_sites_names (datasets : Py.dict DataFrame) :
  map (fun site : string * DataFrame * string => (fst (fst site), snd site))
      (column_sites datasets)
  = flat_map (fun kv => map (fun c => (fst kv, c)) (columns (snd kv))) datasets.
Proof.
  unfold column_sites. induction datasets as [| kv rest IH]; simpl; [reflexivity|].
  rewrite map_app, map_map. cbn [fst snd]. f_equal. exact IH.
Qed.

(** X7.  The coverage analyzer returns one record for each column of each
    loaded table, in the order of the tables and of their columns, each
    carrying its table and column name. *)
Theorem X7_one_coverage_record_per_column (datasets : Py.dict DataFrame) :
  exists records,
    analyze_data_coverage datasets = Ok records
    /\ map (fun rec => (table rec, column rec)) records
       = flat_map (fun kv => map (fun c => (fst kv, c)) (columns (snd kv)))
                  datasets.
Proof.
  unfold analyze_data_coverage.
  destruct (coverage_tables_sites datasets []) as (records & Hrun & Hall).
  exists records. split; [exact Hrun|].
  rewrite <- column_sites_names. clear Hrun.
  induction Hall as [| site rec sites recs Hrec Hall IH]; simpl; [reflexivity|].
  destruct (coverage_of_fields _ _ _ _ Hrec) as (cells & _ & Ht & Hc & _).
  now rewrite Ht, Hc, IH.
Qed.

(** A share of a positive total, as a percentage. *)
Lemma percentage_bounds (part total : Z) :
  0 <= part <= total -> 0 < total ->
  (0 <= inject_Z part / inject_Z total * inject_Z 100)%Q
  /\ (inject_Z part / inject_Z total * inject_Z 100 <= 100)%Q.
Proof.
  intros Hpart Hpos. pose proof (integrity_of_bounds part total Hpart) as B.
  unfold integrity_of in B.
  assert (G : (total >? 0) = true) by (apply Z.gtb_lt; lia).
  rewrite G in B. exact B.
Qed.

Lemma dedup_length_le (vs : list scalar) :
  (List.length (dedup vs) <= List.length vs)%nat.
Proof.
  induction vs as [| v rest IH]; simpl; [lia|].
  pose proof (filter_length_le (fun w => negb (scalar_eqb v w)) (dedup rest)).
  lia.
Qed.

(** The numbers of a coverage record. *)
Lemma coverage_numbers
  (datasets : Py.dict DataFrame) (records : list coverage_record)
  (rec : coverage_record) :
  analyze_data_coverage datasets = Ok records ->
  In rec records ->
  0 <= null_count rec <= total_rows rec
  /\ 0 <= unique_values rec <= total_rows rec - null_count rec
  /\ (0 < total_rows rec ->
      exists p, null_percentage rec = Np.Finite p
                /\ (0 <= p)%Q /\ (p <= 100)%Q)
  /\ (total_rows rec = 0 -> null_percentage rec = Np.NaN).
Proof.
  intros Hrun Hin. unfold analyze_data_coverage in Hrun.
  destruct (coverage_tables_sites datasets []) as (records' & Hrun' & Hall).
  assert (records' = records) by (simpl in Hrun'; congruence). subst records'.
  destruct (Forall2_in_r _ _ _ rec Hall Hin) as (site & _ & Hrec).
  destruct (coverage_of_fields _ _ _ _ Hrec)
    as (cells & Hcells & _ & _ & Hrows & Hnull & Huniq & Hpct).
  pose proof (getitem_length _ _ _ Hcells) as Hlen.
  pose proof (null_and_non_null cells) as Hsum.
  assert (Hn : 0 <= isnull_sum cells) by (unfold isnull_sum; lia).
  assert (Hnn : 0 <= non_null_count cells) by (unfold non_null_count; lia).
  rewrite Hnull, Hrows, <- Hlen. split; [lia|]. split.
  - rewrite Huniq. unfold nunique. split; [lia|].
    replace (Z.of_nat (List.length cells) - isnull_sum cells)
      with (non_null_count cells) by lia.
    unfold non_null_count. apply inj_le. apply dedup_length_le.
  - rewrite Hpct, Hlen. unfold Np.true_divide. split.
    + intros Hpos.
      assert (E : (len (snd (fst site)) =? 0) = false) by (apply Z.eqb_neq; lia).
      rewrite E. cbn [Np.scale Np.round2]. eexists. split; [reflexivity|].
      apply round2_bounds;
        apply (percentage_bounds (isnull_sum cells) (len (snd (fst site))));
        lia.
    + intros Hz. rewrite Hz.
      assert (Z0 : isnull_sum cells = 0) by lia. rewrite Z0. reflexivity.
Qed.


(** X8.  In every coverage record the null count lies between 0 and the
    number of rows, the number of distinct values is at most the number
    of values that are not null, and the null percentage is a number
    between 0 and 100 when the table has rows and NaN when it has none. *)
Theorem X8_coverage_numbers_are_bounded
  (datasets : Py.dict DataFrame) (records : list coverage_record)
  (rec : coverage_record) :
  analyze_data_coverage datasets = Ok records ->
  In rec records ->
  0 <= null_count rec <= total_rows rec
  /\ 0 <= unique_values rec <= total_rows rec - null_count rec
  /\ (0 < total_rows rec ->
      exists p, null_percentage rec = Np.Finite p
                /\ (0 <= p)%Q /\ (p <= 100)%Q)
  /\ (total_rows rec = 0 -> null_percentage rec = Np.NaN).
Proof. exact (coverage_numbers datasets records rec). Qed.

Lemma X8_coverage_numbers_are_bounded_witness :
  exists records,
    analyze_data_coverage [("notes.csv", Examples.frame_notes)] = Ok records
    /\ In Examples.coverage_note records
    /\ 0 <= null_count Examples.coverage_note <= total_rows Examples.coverage_note
    /\ 0 <= unique_values Examples.coverage_note
           <= total_rows Examples.coverage_note - null_count Examples.coverage_note
    /\ (0 < total_rows Examples.coverage_note ->
        exists p, null_percentage Examples.coverage_note = Np.Finite p
                  /\ (0 <= p)%Q /\ (p <= 100)%Q)
    /\ (total_rows Examples.coverage_note = 0 ->
        null_percentage Examples.coverage_note = Np.NaN).
Proof.
  eexists. split; [vm_compute; reflexivity|]. split; [right; left; reflexivity|].
  eapply (X8_coverage_numbers_are_bounded [("notes.csv", Examples.frame_notes)]).
  - vm_compute; reflexivity.
  - right; left; reflexivity.
Defined.

(** X9.  A column of a table without rows has a NaN null percentage, and
    NaN is not greater than 30: the report never counts such a column
    among the columns with more than 30% nulls. *)
Theorem X9_columns_of_empty_tables_are_not_flagged
  (datasets : Py.dict DataFrame) (records : list coverage_record)
  (rec : coverage_record) :
  analyze_data_coverage datasets = Ok records ->
  In rec records ->
  total_rows rec = 0 ->
  null_percentage rec = Np.NaN /\ ~ In rec (high_null_cols records).
Proof.
  intros Hrun Hin Hz.
  destruct (coverage_numbers datasets records rec Hrun Hin) as (_ & _ & _ & Hnan).
  split; [now apply Hnan|].
  unfold high_null_cols. intros Hflag. apply filter_In in Hflag.
  destruct Hflag as [_ Hgt]. rewrite (Hnan Hz) in Hgt. discriminate Hgt.
Qed.

Lemma X9_columns_of_empty_tables_are_not_flagged_witness :
  exists records,
    analyze_data_coverage [("t.csv", Examples.frame_header_only)] = Ok records
    /\ In Examples.coverage_empty_id records
    /\ total_rows Examples.coverage_empty_id = 0
    /\ null_percentage Examples.coverage_empty_id = Np.NaN
    /\ ~ In Examples.coverage_empty_id (high_null_cols records).
Proof.
  eexists. split; [vm_compute; reflexivity|]. split; [left; reflexivity|].
  split; [reflexivity|].
  eapply (X9_columns_of_empty_tables_are_not_flagged
            [("t.csv", Examples.frame_header_only)]).
  - vm_compute; reflexivity.
  - left; reflexivity.
  - reflexivity.
Defined.

End CoverageRecords.

(** ** generate_report: strong and broken relationships, key columns *)

Section ReportFacts.
Import Pd RelationshipAnalyzer Spec.

Lemma filter_complement_length {A} (f : A -> bool) (l : list A) :
  (List.length (filter (fun x => negb (f x)) l) + List.length (filter f l)
   = List.length l)%nat.
Proof.
  induction l as [| x l IH]; simpl; [reflexivity|].
  destruct (f x); simpl; lia.
Qed.

Lemma in_report_block (blocks : list (list string)) (block : list string)
  (line : string) :
  In block blocks -> In line block -> In line (List.concat blocks).
Proof. intros Hb Hl. apply in_concat. now exists block. Qed.

(** X10.  The report puts every relationship entry in exactly one of its
    two lists, strong when the integrity is above 80 and broken
    otherwise; the two counts it prints add up to the number of entries,
    and the two lines of every entry are printed. *)
Theorem X10_report_splits_relationships_at_80
  (datasets : Py.dict DataFrame) (fk_results : list fk_result)
  (coverage_results : list coverage_record) :
  let strong := valid_relationships fk_results in
  let broken := broken_relationships fk_results in
  let printed := generate_report datasets fk_results coverage_results in
  (List.length strong + List.length broken = List.length fk_results)%nat
  /\ (forall r, In r fk_results ->
        (In r strong <-> (80 < referential_integrity_pct r)%Q)
        /\ (In r broken <-> (referential_integrity_pct r <= 80)%Q)
        /\ (In r strong <-> ~ In r broken))
  /\ In ("Strong relationships (>80% integrity): "
         ++ Py.str_int (Z.of_nat (List.length strong))) printed
  /\ In ("Broken relationships (≤80% integrity): "
         ++ Py.str_int (Z.of_nat (List.length broken))) printed
  /\ (forall r line, In r fk_results -> In line (relationship_lines r) ->
                     In line printed).
Proof.
  intros strong broken printed.
  assert (Hsplit : forall r, In r fk_results ->
            (In r strong <-> (80 < referential_integrity_pct r)%Q)
            /\ (In r broken <-> (referential_integrity_pct r <= 80)%Q)).
  { intros r Hr. unfold strong, broken, valid_relationships, broken_relationships.
    rewrite !filter_In. split.
    - split.
      + intros [_ H]. apply Qnot_le_lt. intros Hle.
        apply Qle_bool_iff in Hle. rewrite Hle in H. discriminate H.
      + intros Hlt. split; [exact Hr|].
        destruct (Qle_bool (referential_integrity_pct r) 80) eqn:E; [|reflexivity].
        apply Qle_bool_iff in E. exfalso. now apply (Qlt_not_le _ _ Hlt).
    - split.
      + intros [_ H]. now apply Qle_bool_iff.
      + intros Hle. split; [exact Hr|]. now apply Qle_bool_iff. }
  split; [apply filter_complement_length|]. split; [|split; [|split]].
  - intros r Hr. destruct (Hsplit r Hr) as [Hs Hb].
    split; [exact Hs|]. split; [exact Hb|]. rewrite Hs, Hb. split.
    + intros Hlt Hle. now apply (Qlt_not_le _ _ Hlt).
    + intros Hn. now apply Qnot_le_lt.
  - unfold printed, generate_report. eapply in_report_block.
    + right; right; left; reflexivity.
    + right; right; left; reflexivity.
  - unfold printed, generate_report. eapply in_report_block.
    + right; right; left; reflexivity.
    + right; right; right; left; reflexivity.
  - intros r line Hr Hline. unfold printed, generate_report.
    destruct (Qlt_le_dec 80 (referential_integrity_pct r)) as [Hlt | Hle].
    + eapply in_report_block.
      * right; right; right; left; reflexivity.
      * apply in_flat_map. exists r. split; [|exact Hline].
        now apply (proj1 (Hsplit r Hr)).
    + eapply in_report_block.
      * right; right; right; right; right; left; reflexivity.
      * apply in_flat_map. exists r. split; [|exact Hline].
        now apply (proj2 (Hsplit r Hr)).
Qed.

Lemma string_app_assoc (a b c : string) : (a ++ b) ++ c = a ++ (b ++ c).
Proof. induction a as [| x a IH]; simpl; [reflexivity | now rewrite IH]. Qed.

Lemma prefix_app (a h : string) :
  prefix a h = true <-> exists t, h = a ++ t.
Proof.
  revert h. induction a as [| x a IH]; intros h.
  - split; [intros _; now exists h | intros _; now destruct h].
  - destruct h as [| y h]; simpl.
    + split; [discriminate | intros (t & H); discriminate H].
    + destruct (ascii_dec x y) as [-> | Hne].
      * rewrite IH. split; intros (t & H); exists t; congruence.
      * split; [discriminate|]. intros (t & H). congruence.
Qed.

(** [needle in haystack] holds when the haystack is some text, the
    needle, and some text. *)
Lemma contains_app (n h : string) :
  Py.contains n h = true <-> exists p t, h = p ++ n ++ t.
Proof.
  induction h as [| y h IH].
  - cbn [Py.contains]. rewrite orb_false_r, prefix_app. split.
    + intros (t & H). now exists "", t.
    + intros (p & t & H). destruct p as [| x p]; [now exists t | discriminate H].
  - cbn [Py.contains]. rewrite orb_true_iff, prefix_app, IH. split.
    + intros [(t & H) | (p & t & H)].
      * now exists "", t.
      * exists (String y p), t. simpl. now rewrite H.
    + intros (p & t & H). destruct p as [| x p].
      * left. now exists t.
      * right. exists p, t. simpl in H. congruence.
Qed.

Lemma contains_trans (a b c : string) :
  Py.contains a b = true -> Py.contains b c = true -> Py.contains a c = true.
Proof.
  rewrite !contains_app. intros (p1 & t1 & ->) (p2 & t2 & ->).
  exists (p2 ++ p1), (t1 ++ t2). now rewrite !string_app_assoc.
Qed.

(** X11.  The report takes for a key column every column whose name,
    in lower case, contains "id": the three longer keys of its list
    contain "id" themselves and select nothing more. *)
Theorem X11_key_columns_are_the_names_containing_id (c : coverage_record) :
  is_key_column c = Py.contains "id" (Py.lower (column c)).
Proof.
  unfold is_key_column.
  destruct (Py.contains "id" (Py.lower (column c))) eqn:E.
  - simpl. rewrite E. reflexivity.
  - destruct (existsb _ _) eqn:X; [|reflexivity].
    apply existsb_exists in X. destruct X as (key & Hkey & Hc).
    assert (Hid : Py.contains "id" key = true).
    { destruct Hkey as [<- | [<- | [<- | [<- | []]]]]; reflexivity. }
    rewrite (contains_trans _ _ _ Hid Hc) in E. discriminate E.
Qed.

(** X12.  Among the entries the analyzer returns, one without any child
    reference has integrity 0 and is listed as broken, and one with
    references that are all valid has integrity 100 and is listed as
    strong. *)
Theorem X12_empty_is_broken_and_all_valid_is_strong
  (datasets : Py.dict DataFrame) (results : list fk_result) (e : fk_result) :
  analyze_foreign_keys datasets = Ok results ->
  In e results ->
  (child_total_refs e = 0 -> In e (broken_relationships results))
  /\ (0 < child_total_refs e -> invalid_refs e = 0 ->
      referential_integrity_pct e = 100%Q
      /\ In e (valid_relationships results)).
Proof.
  intros Hrun Hin.
  destruct (analyze_foreign_keys_entry _ _ _ Hrun Hin)
    as (r & pdf & cdf & pc & cc & _ & _ & _ & _ & _ & Hm).
  destruct (fk_metrics_ok r pc cc) as (e' & He' & _ & _ & _ & Hinv & Hpct & _).
  assert (e' = e) by congruence. subst e'. split.
  - intros Hz. unfold broken_relationships. apply filter_In.
    split; [exact Hin|]. rewrite Hpct, Hz. reflexivity.
  - intros Hpos Hnone.
    assert (Hv : valid_refs e = child_total_refs e) by lia.
    assert (H100 : referential_integrity_pct e = 100%Q)
      by (rewrite Hpct, Hv; now apply integrity_full).
    split; [exact H100|]. unfold valid_relationships. apply filter_In.
    split; [exact Hin|]. rewrite H100. reflexivity.
Qed.

Lemma X12_empty_is_broken_and_all_valid_is_strong_witness :
  analyze_foreign_keys Examples.datasets = Ok Examples.results
  /\ In Examples.entry_hierarchy Examples.results
  /\ child_total_refs Examples.entry_hierarchy = 0
  /\ In Examples.entry_hierarchy (broken_relationships Examples.results).
Proof.
  split; [vm_compute; reflexivity|]. split; [right; left; reflexivity|].
  split; [reflexivity|].
  apply (proj1 (X12_empty_is_broken_and_all_valid_is_strong Examples.datasets
                  Examples.results Examples.entry_hierarchy
                  ltac:(vm_compute; reflexivity)
                  ltac:(right; left; reflexivity))).
  reflexivity.
Defined.

End ReportFacts.

(** ** analyze_csv_files: order of the files, statistics of a file *)

Section OverviewStatistics.
Import Pd AnalyzeDatasets Spec.

Lemma insert_sorted_perm (f : string * csv) (l : list (string * csv)) :
  Permutation (insert_sorted f l) (f :: l).
Proof.
  induction l as [| g rest IH]; simpl; [reflexivity|].
  destruct (String.leb (fst f) (fst g)); [reflexivity|].
  rewrite IH. apply perm_swap.
Qed.

Lemma sorted_perm (l : list (string * csv)) : Permutation (sorted l) l.
Proof.
  unfold sorted. induction l as [| f rest IH]; simpl; [reflexivity|].
  rewrite insert_sorted_perm. now constructor.
Qed.

Lemma insert_sorted_sorted (f : string * csv) (l : list (string * csv)) :
  Sorted file_le l -> Sorted file_le (insert_sorted f l).
Proof.
  induction l as [| g rest IH]; intros Hs; simpl.
  - repeat constructor.
  - destruct (String.leb (fst f) (fst g)) eqn:E.
    + constructor; [exact Hs | constructor; exact E].
    + assert (Hgf : file_le g f).
      { unfold file_le, name_le.
        destruct (String.leb_total (fst f) (fst g)) as [H | H]; congruence. }
      inversion Hs as [| ? ? Hrest Hhd]; subst.
      constructor; [now apply IH|].
      destruct rest as [| h rest']; simpl.
      * constructor. exact Hgf.
      * destruct (String.leb (fst f) (fst h)); constructor; [exact Hgf|].
        now inversion Hhd.
Qed.

Lemma sorted_sorted (l : list (string * csv)) : Sorted file_le (sorted l).
Proof.
  unfold sorted. induction l as [| f rest IH]; simpl; [constructor|].
  now apply insert_sorted_sorted.
Qed.

Lemma Sorted_map_fst (l : list (string * csv)) :
  Sorted file_le l -> Sorted name_le (map fst l).
Proof.
  induction 1 as [| f l Hs IH Hhd]; simpl; constructor; [exact IH|].
  destruct Hhd; simpl; constructor. assumption.
Qed.

(** X13.  When every CSV file of the directory parses, the overview
    returns the statistics of each of them, one per file, ordered by file
    name whatever the order of the listing. *)
Theorem X13_overview_lists_every_file_by_name
  (read_csv : csv -> result DataFrame)
  (fs : filesystem) (directory_ : string) (d : directory) :
  Py.get fs directory_ = Some d ->
  Forall (fun f => exists df, read_csv (snd f) = Ok df) (glob_csv d) ->
  exists sts out,
    analyze_csv_files read_csv fs directory_ = (Ok sts, out)
    /\ Permutation (map file sts) (map fst (glob_csv d))
    /\ Sorted name_le (map file sts).
Proof.
  intros Hd Hall.
  destruct (overview_returns_when_all_parse read_csv fs directory_ d Hd Hall)
    as (sts & out & Hrun & Hnames).
  exists sts, out. split; [exact Hrun|]. rewrite Hnames. split.
  - apply Permutation_map. apply sorted_perm.
  - apply Sorted_map_fst. apply sorted_sorted.
Qed.

Lemma X13_overview_lists_every_file_by_name_witness :
  Py.get Examples.fs_unsorted "d" = Some Examples.dir_unsorted
  /\ Forall (fun f => exists df, Csv.read_csv (snd f) = Ok df)
            (glob_csv Examples.dir_unsorted)
  /\ exists sts out,
       analyze_csv_files Csv.read_csv Examples.fs_unsorted "d" = (Ok sts, out)
       /\ Permutation (map file sts) (map fst (glob_csv Examples.dir_unsorted))
       /\ Sorted name_le (map file sts).
Proof.
  assert (Hall : Forall (fun f => exists df, Csv.read_csv (snd f) = Ok df)
                        (glob_csv Examples.dir_unsorted)).
  { apply Forall_forall. intros f Hin.
    change (glob_csv Examples.dir_unsorted)
      with [("notes.csv", Examples.notes);
            ("db1_keyword_sets_file_sample.csv", Examples.keyword_sets_text_ids)]
      in Hin.
    destruct Hin as [<- | [<- | []]]; eexists; vm_compute; reflexivity. }
  split; [reflexivity|]. split; [exact Hall|].
  exact (X13_overview_lists_every_file_by_name Csv.read_csv Examples.fs_unsorted
           "d" Examples.dir_unsorted eq_refl Hall).
Defined.

Lemma not_bool_label (dt : dtype) :
  negb (Py.mem (dtype_str dt) ["bool"; "boolean"]) = true
  <-> dt <> bool_ /\ dt <> boolean.
Proof.
  destruct dt; simpl; split; try discriminate; try (intros _; split; discriminate);
    intros [H1 H2]; congruence.
Qed.

Lemma object_label (dt : dtype) :
  Py.contains "object" (dtype_str dt) = true <-> dt = object.
Proof. destruct dt; simpl; split; try discriminate; reflexivity. Qed.

Lemma numeric_expected (expected : string) :
  Py.mem expected ["int64"; "float64"] = true
  <-> expected = "int64" \/ expected = "float64".
Proof.
  unfold Py.mem. cbn [existsb].
  rewrite orb_false_r, orb_true_iff, !String.eqb_eq. tauto.
Qed.

(** X14.  The rule of the schema checker for one column.  There is at
    most one entry.  There is one exactly when the column is in the table
    and either bool is expected and the observed type is neither bool nor
    boolean, or int64 or float64 is expected and the observed type is
    object.  So a column expected as object, or expected as int64 and
    observed as float64 or bool, is never reported. *)
Theorem X14_schema_rule_for_a_column (df : DataFrame) (col expected : string) :
  exists entries,
    mismatch_entry df col expected = Ok entries
    /\ (List.length entries <= 1)%nat
    /\ (entries <> [] <->
        exists dt,
          dtype_of df col = Ok dt
          /\ ((expected = "bool" /\ dt <> bool_ /\ dt <> boolean)
              \/ ((expected = "int64" \/ expected = "float64") /\ dt = object))).
Proof.
  exists (mismatch_entries df col expected).
  split; [apply mismatch_entry_ok|].
  unfold mismatch_entries, mismatch_entry.
  destruct (has_column df col) eqn:Hc.
  - apply has_column_in in Hc. destruct (dtype_of_columns df col Hc) as (dt & Hdt).
    rewrite Hdt. cbn [bind].
    destruct (String.eqb expected "bool"
              && negb (Py.mem (dtype_str dt) ["bool"; "boolean"])) eqn:B.
    + split; [simpl; lia|]. split; [|discriminate].
      intros _. exists dt. split; [reflexivity|]. left.
      apply andb_prop in B. destruct B as [B1 B2].
      apply String.eqb_eq in B1. apply not_bool_label in B2. tauto.
    + destruct (Py.mem expected ["int64"; "float64"]
                && Py.contains "object" (dtype_str dt)) eqn:N.
      * split; [simpl; lia|]. split; [|discriminate].
        intros _. exists dt. split; [reflexivity|]. right.
        apply andb_prop in N. destruct N as [N1 N2].
        apply numeric_expected in N1. apply object_label in N2. tauto.
      * split; [simpl; lia|]. split; [intros H; now contradiction H|].
        intros (dt' & Heq & Hrule). injection Heq as <-.
        destruct Hrule as [(He & Hd) | (He & Hd)].
        -- apply not_bool_label in Hd. apply String.eqb_eq in He.
           rewrite He, Hd in B. discriminate B.
        -- apply numeric_expected in He. apply object_label in Hd.
           rewrite He, Hd in N. discriminate N.
  - split; [simpl; lia|]. split; [intros H; now contradiction H|].
    intros (dt & Hdt & _). rewrite has_column_getitem in Hc.
    unfold dtype_of, Py.getitem in Hdt. unfold getitem in Hc.
    pose proof (index_of_mem col (columns df)) as M.
    pose proof (has_key_get (header df) col) as K.
    unfold Py.has_key, Py.keys in K. unfold columns in M, Hc.
    destruct (index_of col (map fst (header df))); [discriminate Hc|].
    rewrite M in K. destruct (Py.get (header df) col); discriminate.
Qed.

End OverviewStatistics.

Section FileStatistics.
Import Pd AnalyzeDatasets Spec.

(** The fields of the statistics of a file. *)
Lemma file_stats_fields (name : string) (df : DataFrame) (st : stats) :
  file_stats name df = Ok st ->
  n_rows st = len df
  /\ n_columns st = Z.of_nat (List.length (columns df))
  /\ total_nulls st = zsum (null_counts df)
  /\ columns_with_nulls st
     = Z.of_nat (List.length (filter (fun n => n >? 0) (null_counts df)))
  /\ null_percentage st
     = Np.round2 (Np.scale (Np.true_divide (zsum (null_counts df))
                              (len df * Z.of_nat (List.length (columns df)))) 100)
  /\ exists mismatches,
       type_mismatch_list name df = Ok mismatches
       /\ type_mismatches st = Z.of_nat (List.length mismatches)
       /\ mismatch_details st
          = Py.join ", " (firstn 3 mismatches)
            ++ (if (3 <? List.length mismatches)%nat then "..." else "").
Proof.
  unfold file_stats, type_mismatch_list. rewrite mismatches_with_ok. cbn [bind].
  destruct (unique_if_present_ok df "company_id") as (u1 & ->).
  destruct (unique_if_present_ok df "employment_id") as (u2 & ->).
  destruct (unique_if_present_ok df "keyword") as (u3 & ->).
  cbn [bind]. intros [= <-].
  cbn [n_rows n_columns total_nulls columns_with_nulls null_percentage
       type_mismatches mismatch_details].
  repeat split. eexists. split; [reflexivity|]. split; reflexivity.
Qed.

Lemma flat_map_length_le {A B} (f : A -> list B) (l : list A) :
  (forall x, (List.length (f x) <= 1)%nat) ->
  (List.length (flat_map f l) <= List.length l)%nat.
Proof.
  intros H. induction l as [| x l IH]; simpl; [lia|].
  rewrite length_app. specialize (H x). lia.
Qed.

Lemma mismatch_entries_length (df : DataFrame) (col expected : string) :
  (List.length (mismatch_entries df col expected) <= 1)%nat.
Proof.
  unfold mismatch_entries, mismatch_entry.
  destruct (has_column df col); [|simpl; lia].
  destruct (dtype_of df col) as [dt | e]; [|simpl; lia]. cbn [bind].
  destruct (String.eqb expected "bool" && negb (Py.mem (dtype_str dt) ["bool"; "boolean"]));
    [simpl; lia|].
  destruct (Py.mem expected ["int64"; "float64"] && Py.contains "object" (dtype_str dt));
    simpl; lia.
Qed.

(** X15.  The number of type mismatches of a file is at most the number
    of columns its expected schema names, and a file without an expected
    schema has 0 mismatches and empty details, whatever its columns. *)
Theorem X15_mismatch_count_is_bounded_by_the_schema
  (name : string) (df : DataFrame) (st : stats) :
  file_stats name df = Ok st ->
  match Py.get SCHEMAS name with
  | Some schema => 0 <= type_mismatches st <= Z.of_nat (List.length schema)
  | None => type_mismatches st = 0 /\ mismatch_details st = ""
  end.
Proof.
  intros Hst. destruct (file_stats_fields name df st Hst)
    as (_ & _ & _ & _ & _ & mismatches & Hm & Hcount & Hdetails).
  unfold type_mismatch_list in Hm. rewrite mismatches_with_ok in Hm.
  destruct (Py.get SCHEMAS name) as [schema |].
  - injection Hm as <-. rewrite Hcount. split; [lia|]. apply inj_le.
    apply flat_map_length_le. intros it. apply mismatch_entries_length.
  - injection Hm as <-. rewrite Hcount, Hdetails. split; reflexivity.
Qed.

Lemma X15_mismatch_count_is_bounded_by_the_schema_witness :
  exists st,
    file_stats "db1_keyword_sets_file_sample.csv" Examples.frame_text_ids = Ok st
    /\ 0 <= type_mismatches st <= 2.
Proof.
  assert (H : exists st, file_stats "db1_keyword_sets_file_sample.csv"
                           Examples.frame_text_ids = Ok st)
    by (eexists; vm_compute; reflexivity).
  destruct H as (st & Hst). exists st. split; [exact Hst|].
  exact (X15_mismatch_count_is_bounded_by_the_schema
           "db1_keyword_sets_file_sample.csv" Examples.frame_text_ids st Hst).
Defined.

Lemma isnull_sum_le (cells : list cell) :
  0 <= isnull_sum cells <= Z.of_nat (List.length cells).
Proof.
  unfold isnull_sum. split; [lia|]. apply inj_le. apply filter_length_le.
Qed.

Lemma zsum_bounds (l : list Z) (b : Z) :
  Forall (fun n => 0 <= n <= b) l ->
  0 <= zsum l <= b * Z.of_nat (List.length l).
Proof.
  unfold zsum. induction 1 as [| n l Hn Hall IH]; simpl fold_right;
    simpl List.length; [lia|].
  rewrite Nat2Z.inj_succ. nia.
Qed.

Lemma null_counts_bounds (df : DataFrame) :
  Forall (fun n => 0 <= n <= len df) (null_counts df)
  /\ List.length (null_counts df) = List.length (columns df).
Proof.
  unfold null_counts, columns, len. split.
  - apply Forall_forall. intros n Hn. apply in_map_iff in Hn.
    destruct Hn as (i & <- & _).
    pose proof (isnull_sum_le (map (fun r => nth i r None) (rows df))) as B.
    now rewrite length_map in B.
  - now rewrite !length_map, length_seq.
Qed.

(** X16.  In the statistics of a file the total of nulls lies between 0
    and rows * columns, the number of columns with nulls is at most the
    number of columns, and the null percentage is a number between 0 and
    100 when the table has cells and NaN when it has no row or no column:
    the division by rows * columns is not guarded. *)
Theorem X16_overview_null_statistics
  (name : string) (df : DataFrame) (st : stats) :
  file_stats name df = Ok st ->
  0 <= total_nulls st <= n_rows st * n_columns st
  /\ 0 <= columns_with_nulls st <= n_columns st
  /\ (0 < n_rows st * n_columns st ->
      exists p, null_percentage st = Np.Finite p /\ (0 <= p)%Q /\ (p <= 100)%Q)
  /\ (n_rows st * n_columns st = 0 -> null_percentage st = Np.NaN).
Proof.
  intros Hst. destruct (file_stats_fields name df st Hst)
    as (Hrows & Hcols & Htotal & Hwith & Hpct & _).
  destruct (null_counts_bounds df) as [Hall Hlen].
  pose proof (zsum_bounds (null_counts df) (len df) Hall) as Hsum.
  rewrite Hlen in Hsum.
  rewrite Hrows, Hcols, Htotal, Hwith, Hpct.
  split; [exact Hsum|]. split.
  - split; [lia|]. rewrite <- Hlen. apply inj_le. apply filter_length_le.
  - unfold Np.true_divide. split.
    + intros Hpos.
      assert (E : (len df * Z.of_nat (List.length (columns df)) =? 0) = false)
        by (apply Z.eqb_neq; lia).
      rewrite E. cbn [Np.scale Np.round2]. eexists. split; [reflexivity|].
      apply round2_bounds; apply percentage_bounds; lia.
    + intros Hz. rewrite Hz.
      assert (Z0 : zsum (null_counts df) = 0) by lia. rewrite Z0. reflexivity.
Qed.

Lemma X16_overview_null_statistics_witness :
  exists st,
    file_stats "t.csv" Examples.frame_header_only = Ok st
    /\ n_rows st * n_columns st = 0
    /\ null_percentage st = Np.NaN.
Proof.
  assert (H : exists st, file_stats "t.csv" Examples.frame_header_only = Ok st)
    by (eexists; vm_compute; reflexivity).
  destruct H as (st & Hst). exists st. split; [exact Hst|].
  assert (Hz : n_rows st * n_columns st = 0).
  { vm_compute in Hst. injection Hst as <-. reflexivity. }
  split; [exact Hz|].
  exact (proj2 (proj2 (proj2 (X16_overview_null_statistics "t.csv"
                                Examples.frame_header_only st Hst))) Hz).
Defined.

End FileStatistics.

(** ** sampler: what is written *)

Section SamplerOutputs.
Import Pd Sampler Spec.

Variable read_csv_str : csv -> result DataFrame.

Lemma sampler_loop_keys (files : list (string * csv)) (samples : directory) :
  NoDup (map fst files) ->
  (forall name content df,
     In (name, content) files -> read_csv_str content = Ok df ->
     ~ In (fst (sample_of name df)) (Py.keys samples)) ->
  Py.keys (fst (sampler_loop read_csv_str files samples))
  = (Py.keys samples
     ++ map (out_name read_csv_str) (ok_prefix read_csv_str files))%list.
Proof.
  revert samples. induction files as [| [n c] rest IH]; intros samples Hnd Hfresh.
  - simpl. now rewrite app_nil_r.
  - simpl in Hnd. inversion Hnd as [| ? ? Hnotin Hnd']; subst.
    cbn [sampler_loop ok_prefix]. unfold parses. cbn [snd].
    destruct (read_csv_str c) as [df | e] eqn:Hc.
    + destruct (sample_of n df) as [o odf] eqn:Hs.
      assert (Ho : ~ In o (Py.keys samples)).
      { replace o with (fst (sample_of n df)) by now rewrite Hs.
        apply (Hfresh n c df); [now left | exact Hc]. }
      assert (Hon : out_name read_csv_str (n, c) = o).
      { unfold out_name. cbn [fst snd]. now rewrite Hc, Hs. }
      rewrite IH.
      * rewrite keys_setitem_new by exact Ho. cbn [map]. rewrite Hon.
        now rewrite <- app_assoc.
      * exact Hnd'.
      * intros n' c' d' Hin' Hok' Hin.
        rewrite keys_setitem_new in Hin by exact Ho.
        apply in_app_or in Hin. destruct Hin as [Hin | [Heq | []]].
        -- apply (Hfresh n' c' d'); [now right | exact Hok' | exact Hin].
        -- replace o with (fst (sample_of n df)) in Heq by now rewrite Hs.
           apply sample_name_inj in Heq. subst n'.
           apply Hnotin. apply in_map_iff. now exists (n, c').
    + simpl. now rewrite app_nil_r.
Qed.

Lemma sampler_loop_status_iff (files : list (string * csv)) (samples : directory) :
  snd (sampler_loop read_csv_str files samples) = None
  <-> ok_prefix read_csv_str files = files.
Proof.
  revert samples. induction files as [| [n c] rest IH]; intros samples.
  - simpl. tauto.
  - cbn [sampler_loop ok_prefix]. unfold parses. cbn [snd].
    destruct (read_csv_str c) as [df | e].
    + destruct (sample_of n df) as [o odf]. rewrite IH.
      split; intros H; congruence.
    + simpl. split; discriminate.
Qed.

Lemma setitem_values {V} (P : V -> Prop) (d : Py.dict V) (k : string) (v : V) :
  Forall (fun kv => P (snd kv)) d -> P v ->
  Forall (fun kv => P (snd kv)) (Py.setitem d k v).
Proof.
  intros Hd Hv. induction Hd as [| [k0 v0] rest H0 Hrest IH]; simpl.
  - now repeat constructor.
  - destruct (String.eqb k k0); constructor; assumption.
Qed.

Lemma sample_of_records (name : string) (df : DataFrame) :
  (List.length (tl (Csv.to_csv (snd (sample_of name df)))) <= 500)%nat.
Proof.
  unfold sample_of, Csv.to_csv.
  destruct (len df <=? 500) eqn:E; cbn [snd tl]; rewrite length_map.
  - apply Z.leb_le in E. unfold len in E. apply Nat2Z.inj_le. exact E.
  - unfold head. cbn [rows]. rewrite length_firstn. apply Nat.le_min_l.
Qed.

Lemma sampler_loop_values (files : list (string * csv)) (samples : directory) :
  Forall (fun kv => (List.length (tl (snd kv)) <= 500)%nat) samples ->
  Forall (fun kv => (List.length (tl (snd kv)) <= 500)%nat)
         (fst (sampler_loop read_csv_str files samples)).
Proof.
  revert samples. induction files as [| [n c] rest IH]; intros samples Hs.
  - exact Hs.
  - cbn [sampler_loop]. destruct (read_csv_str c) as [df | e]; [|exact Hs].
    pose proof (sample_of_records n df) as Hrec.
    destruct (sample_of n df) as [o odf]. apply IH.
    apply (setitem_values (fun content => (List.length (tl content) <= 500)%nat));
      assumption.
Qed.

(** X18.  The sampler writes one file for each CSV file of the datasets
    directory up to the first one that fails to parse, in the order of
    the listing, and nothing for the files after it; it ends without an
    exception exactly when every file parses.  No file it writes has
    more than 500 records under its header line. *)
Theorem X18_sampler_outputs (datasets_dir : directory) :
  NoDup (map fst datasets_dir) ->
  exists samples status,
    sampler read_csv_str datasets_dir = (samples, status)
    /\ Py.keys samples
       = map (out_name read_csv_str)
             (ok_prefix read_csv_str (glob_csv datasets_dir))
    /\ (status = None
        <-> ok_prefix read_csv_str (glob_csv datasets_dir) = glob_csv datasets_dir)
    /\ Forall (fun kv => (List.length (tl (snd kv)) <= 500)%nat) samples.
Proof.
  intros Hnd. unfold sampler.
  assert (Hnd' : NoDup (map fst (glob_csv datasets_dir)))
    by (apply NoDup_map_filter; exact Hnd).
  pose proof (sampler_loop_keys (glob_csv datasets_dir) [] Hnd'
                (fun _ _ _ _ _ H => H)) as Hkeys.
  pose proof (sampler_loop_status_iff (glob_csv datasets_dir) []) as Hstatus.
  pose proof (sampler_loop_values (glob_csv datasets_dir) [] (Forall_nil _)) as Hvals.
  destruct (sampler_loop read_csv_str (glob_csv datasets_dir) [])
    as [samples status].
  exists samples, status. cbn [fst snd] in *.
  split; [reflexivity|]. split; [exact Hkeys|]. split; [exact Hstatus | exact Hvals].
Qed.

End SamplerOutputs.

Lemma X18_sampler_outputs_witness :
  NoDup (map fst Examples.sampler_dir_broken)
  /\ exists samples status,
       Sampler.sampler Csv.read_csv_str Examples.sampler_dir_broken
       = (samples, status)
       /\ Py.keys samples = ["copy_db1_keyword_sets_file_sample.csv"]
       /\ status <> None.
Proof.
  assert (Hnd : NoDup (map fst Examples.sampler_dir_broken))
    by (repeat constructor; cbv; intuition discriminate).
  split; [exact Hnd|].
  destruct (X18_sampler_outputs Csv.read_csv_str Examples.sampler_dir_broken Hnd)
    as (samples & status & Hrun & Hkeys & Hstatus & _).
  exists samples, status. split; [exact Hrun|]. split.
  - rewrite Hkeys. vm_compute. reflexivity.
  - intros Hnone. apply Hstatus in Hnone. vm_compute in Hnone. discriminate Hnone.
Defined.

Section SamplerRoundTrip.
Import Pd Csv Sampler Spec.


Lemma written_record_length (w : nat) (r : list string) :
  List.length (written_record w r) = w.
Proof. unfold written_record. now rewrite length_map, length_seq. Qed.

Lemma written_record_idempotent (w : nat) (r : list string) :
  written_record w (written_record w r) = written_record w r.
Proof.
  unfold written_record. apply map_ext_in. intros i Hi.
  apply in_seq in Hi. cbn zeta. rewrite nth_map_seq by lia.
  destruct (is_na (nth i r "")) eqn:E; [reflexivity|].
  now rewrite E.
Qed.

Lemma first_long_none (w line : nat) (records : list (list string)) :
  Forall (fun r => (List.length r <= w)%nat) records ->
  first_long w line records = None.
Proof.
  intros H. revert line. induction H as [| r rest Hr Hrest IH]; intros line; simpl.
  - reflexivity.
  - assert (E : (w <? List.length r)%nat = false) by (apply Nat.ltb_ge; exact Hr).
    rewrite E. apply IH.
Qed.

(** X19.  What the sampler writes for a file reads back and is written
    again unchanged: sampling a sample alters nothing further. *)
Theorem X19_sampling_a_sample_changes_nothing
  (names : list string) (records : list (list string)) (df : DataFrame) :
  read_csv_str (names :: records) = Ok df ->
  exists df',
    read_csv_str (to_csv df) = Ok df'
    /\ to_csv df' = to_csv df.
Proof.
  intros Hread. destruct (to_csv_rows names records df Hread) as (Hw & _).
  rewrite Hw.
  assert (Hok : exists df', read_csv_str
                  (names :: map (written_record (List.length names)) records)
                = Ok df').
  { unfold read_csv_str. rewrite first_long_none; [eexists; reflexivity|].
    apply Forall_forall. intros r Hr. apply in_map_iff in Hr.
    destruct Hr as (r0 & <- & _). now rewrite written_record_length. }
  destruct Hok as (df' & Hread'). exists df'. split; [exact Hread'|].
  destruct (to_csv_rows names _ df' Hread') as (Hw' & _).
  rewrite Hw', map_map. f_equal.
  apply map_ext. intros r. apply written_record_idempotent.
Qed.

End SamplerRoundTrip.


Lemma X19_sampling_a_sample_changes_nothing_witness :
  exists df df',
    Csv.read_csv_str Examples.notes = Ok df
    /\ Csv.read_csv_str (Csv.to_csv df) = Ok df'
    /\ Csv.to_csv df' = Csv.to_csv df.
Proof.
  assert (H : exists df, Csv.read_csv_str Examples.notes = Ok df)
    by (eexists; vm_compute; reflexivity).
  destruct H as (df & Hdf).
  destruct (X19_sampling_a_sample_changes_nothing ["id"; "note"]
              [["1"; "a"]; ["2"; ""]; ["3"; "c"]] df Hdf) as (df' & H1 & H2).
  exists df, df'. split; [exact Hdf|]. split; [exact H1 | exact H2].
Defined.

(** ** setup_output_directory: what is cleaned *)

Section OutputDirectory.
Import Pd RelationshipAnalyzer Spec.




End OutputDirectory.

(** ** load_datasets, then analyze_foreign_keys *)

Section LoadThenAnalyze.
Import Pd RelationshipAnalyzer Spec.

Variable read_csv : csv -> result DataFrame.

(** No entry reports on a relationship that cannot be evaluated. *)
Lemma unevaluable_not_reported (datasets : Py.dict DataFrame) (r : relationship) :
  unevaluable datasets r = true ->
  forall e, In e (flat_map (fk_entries datasets) relationships) -> key_of e <> r.
Proof.
  intros Hskip e Hin Hkey. apply in_flat_map in Hin.
  destruct Hin as (r' & _ & He). unfold fk_entries in He.
  destruct (fk_step_ok datasets r') as (l & Hl & Hk).
  rewrite Hl in He. specialize (Hk e He).
  assert (r' = r) by congruence. subst r'.
  apply unevaluable_step in Hskip.
  assert (l = []) by congruence. subst l. exact He.
Qed.

(** X21.  A file that fails to parse takes its relationships out of the
    analysis without any error: the loader returns the other tables, the
    analyzer returns, and no entry reports on a relationship whose parent
    or child table is that file. *)
Theorem X21_unparsed_file_silences_its_relationships
  (fs : filesystem) (data_dir : string) (d : directory)
  (name : string) (content : csv) (e : exn) (r : relationship) :
  Py.get fs data_dir = Some d ->
  NoDup (map fst d) ->
  In (name, content) (glob_csv d) ->
  read_csv content = Raise e ->
  fst (fst (fst r)) = name \/ snd (fst r) = name ->
  exists datasets out results,
    load_datasets read_csv fs data_dir = (Ok datasets, out)
    /\ analyze_foreign_keys datasets = Ok results
    /\ forall x, In x results -> key_of x <> r.
Proof.
  intros Hd Hnd Hin He Hname. unfold load_datasets. rewrite Hd.
  assert (Hnd' : NoDup (map fst (glob_csv d)))
    by (apply NoDup_map_filter; exact Hnd).
  destruct (glob_csv d) as [| f files] eqn:Hglob; [contradiction|].
  set (out0 := ["Loading " ++ Py.str_int (Z.of_nat (List.length (f :: files)))
                ++ " CSV files..."]).
  pose proof (load_loop_get read_csv (f :: files) [] out0 name content Hnd' Hin)
    as Hget.
  rewrite He in Hget. cbn [Py.get] in Hget.
  destruct (load_loop read_csv (f :: files) [] out0) as [datasets out].
  cbn [fst] in Hget.
  exists datasets, out, (flat_map (fk_entries datasets) relationships).
  split; [reflexivity|]. split; [apply analyze_foreign_keys_ok|].
  apply unevaluable_not_reported.
  destruct r as [[[pt pk] ct] ck]. cbn [fst snd] in Hname.
  unfold unevaluable, loaded.
  destruct Hname as [-> | ->]; rewrite Hget; simpl.
  - reflexivity.
  - now rewrite orb_true_r.
Qed.

End LoadThenAnalyze.

Lemma X21_unparsed_file_silences_its_relationships_witness :
  Py.get Examples.fs_companies_broken "private/datasets"
  = Some Examples.dir_companies_broken
  /\ NoDup (map fst Examples.dir_companies_broken)
  /\ In ("db_company_file_sample.csv", Examples.empty_file)
        (glob_csv Examples.dir_companies_broken)
  /\ exists datasets out results,
       RelationshipAnalyzer.load_datasets Csv.read_csv
         Examples.fs_companies_broken "private/datasets" = (Ok datasets, out)
       /\ RelationshipAnalyzer.analyze_foreign_keys datasets = Ok results
       /\ forall x, In x results -> Spec.key_of x <> Examples.hierarchy.
Proof.
  assert (Hnd : NoDup (map fst Examples.dir_companies_broken))
    by (repeat constructor; cbv; intuition discriminate).
  assert (Hin : In ("db_company_file_sample.csv", Examples.empty_file)
                   (glob_csv Examples.dir_companies_broken))
    by (right; left; reflexivity).
  split; [reflexivity|]. split; [exact Hnd|]. split; [exact Hin|].
  apply (X21_unparsed_file_silences_its_relationships Csv.read_csv
           Examples.fs_companies_broken "private/datasets"
           Examples.dir_companies_broken "db_company_file_sample.csv"
           Examples.empty_file (EmptyDataError "No columns to parse from file")
           Examples.hierarchy eq_refl Hnd Hin eq_refl).
  left; reflexivity.
Defined.
